(** * megatron_patch/model/llama2/gpt_model.py

    A shallow embedding of the GPT model wrapper: the module-level function
    [post_language_model_processing] and the class [GPTModel] with its
    methods [__init__], [set_input_tensor], [forward],
    [state_dict_for_save_checkpoint] and [load_state_dict].

    Python statements are written in a state-and-exception monad.  Tensors
    carry their shape, their dtype and their elements; dictionaries are
    finite maps with string keys.  Everything the file imports (torch,
    megatron, the sibling module language_model) is an interface,
    [Framework], over which the definitions are parameterised. *)

From stdpp Require Import base option list strings gmap.

Set Default Proof Using "Type".

(** ** Python outcomes and statements *)

(** The exceptions that the statements of this file can raise themselves,
    and one constructor for whatever is raised inside a delegated call. *)
Inductive exn : Type :=
| AssertionError                  (* the [assert] of post_language_model_processing *)
| IndexError                      (* torch: dimension out of range *)
| KeyError (key : string)         (* subscript of a dict with a missing key *)
| AttributeError (name : string)  (* attribute that was never assigned *)
| FrameworkError (msg : string).  (* raised inside the imported framework *)

Inductive outcome (A : Type) : Type :=
| Return (a : A)
| Raise (e : exn).
Arguments Return {A} a.
Arguments Raise {A} e.

(** A statement run on a state [S]: its outcome and the state it leaves.
    A raised exception keeps the mutations done before it. *)
Definition py (S A : Type) : Type := S → outcome A * S.

Definition py_ret {S A} (a : A) : py S A := λ s, (Return a, s).

Definition py_bind {S A B} (m : py S A) (k : A → py S B) : py S B :=
  λ s, match m s with
       | (Return a, s') => k a s'
       | (Raise e, s') => (Raise e, s')
       end.

#[global] Instance py_mret S : MRet (py S) := λ A, @py_ret S A.
#[global] Instance py_mbind S : MBind (py S) := λ A B k m, @py_bind S A B m k.

Definition raise {S A} (e : exn) : py S A := λ s, (Raise e, s).

(** [assert c] *)
Definition assert {S} (c : bool) : py S unit :=
  if c then py_ret () else raise AssertionError.

(** An operation without effect that can fail. *)
Definition lift_outcome {S A} (o : outcome A) : py S A := λ s, (o, s).

(** Reading the state. *)
Definition gets {S A} (f : S → A) : py S A := λ s, (Return (f s), s).

(** A call into the framework: it returns a value or fails with a message,
    which reaches this file as [FrameworkError]. *)
Definition fw (S A : Type) : Type := S → (string + A) * S.

Definition call {S A} (f : fw S A) : py S A :=
  λ s, match f s with
       | (inr a, s') => (Return a, s')
       | (inl msg, s') => (Raise (FrameworkError msg), s')
       end.

(** Running a statement on a component of the state. *)
Definition zoom {S T A} (get : S → T) (set : T → S → S) (m : py T A) : py S A :=
  λ s, let '(r, t') := m (get s) in (r, set t' s).

(** ** torch tensors *)

Module torch.

Inductive dtype : Type := half | bfloat16 | float | double | long.

#[global] Instance dtype_eq_dec : EqDecision dtype.
Proof. solve_decision. Defined.

Section tensor.
Context {elt : Type}.

(** A tensor: its shape, its dtype and the element at each index. *)
Record Tensor : Type := mkTensor {
  shape : list nat;
  dtype_of : dtype;
  item : list nat → elt;
}.

Definition dim (t : Tensor) : nat := length (shape t).

(** Exchanging the entries at positions [i] and [j] of a list. *)
Definition swap {A} (i j : nat) (l : list A) : list A :=
  match l !! i, l !! j with
  | Some x, Some y => <[j := x]> (<[i := y]> l)
  | _, _ => l
  end.

(** [t.transpose(dim0, dim1)] for non-negative dimensions: out of range
    raises, otherwise the two axes are exchanged. *)
Definition transpose (dim0 dim1 : nat) (t : Tensor) : outcome Tensor :=
  if bool_decide (dim0 < dim t) && bool_decide (dim1 < dim t) then
    Return {| shape := swap dim0 dim1 (shape t);
              dtype_of := dtype_of t;
              item := λ idx, item t (swap dim0 dim1 idx) |}
  else Raise IndexError.

(** [t.contiguous()] changes the memory layout only. *)
Definition contiguous (t : Tensor) : Tensor := t.

(** [t.float()], with [cast] the conversion of one element. *)
Definition float_ (cast : dtype → dtype → elt → elt) (t : Tensor) : Tensor :=
  if decide (dtype_of t = float) then t
  else {| shape := shape t;
          dtype_of := float;
          item := λ idx, cast (dtype_of t) float (item t idx) |}.

End tensor.
Arguments Tensor : clear implicits.

End torch.
Export torch.

(** ** Values stored in checkpoints *)

(** A state dict is a dictionary whose values are tensors or again
    dictionaries. *)
#[warnings="-register-all"] Inductive pyval {elt : Type} : Type :=
| PTensor (t : Tensor elt)
| PDict (d : gmap string pyval).
Arguments pyval : clear implicits.

(** ** The imported framework *)

(** What [get_args()] gives, as far as this file reads it; [float] is the
    type of Python floats. *)
Record Args {float : Type} : Type := {
  untie_embeddings_and_output_weights_of : bool;
  fp16_lm_cross_entropy_of : bool;
  init_method_std : float;
  num_layers : nat;
}.
Arguments Args : clear implicits.

(** The initialisers handed to get_language_model: the values of
    [init_method_normal(std)] and
    [scaled_init_method_normal(std, num_layers)]. *)
Inductive InitMethod {float : Type} : Type :=
| init_method_normal (std : float)
| scaled_init_method_normal (std : float) (num_layers : nat).
Arguments InitMethod : clear implicits.

Inductive AttnMaskType : Type := padding | causal.

(** The types the framework owns. *)
Class FrameworkTypes : Type := {
  elt : Type;        (* the elements of a tensor, and Python floats *)
  World : Type;      (* the global state of the process: arguments, groups *)
  Backbone : Type;   (* the module built by get_language_model *)
  Embedding : Type;  (* the module kept in self.word_embeddings *)
}.

Section model.
Context {T : FrameworkTypes}.

Local Abbreviation Tensor := (torch.Tensor elt).
Local Abbreviation pyval := (pyval elt).
Local Abbreviation Args := (Args elt).
Local Abbreviation InitMethod := (InitMethod elt).

(** ** class GPTModel(MegatronModule): the attributes *)

(** The last three attributes belong to the base class MegatronModule;
    [word_embeddings] and [_word_embeddings_for_head_key] exist only once
    the base class has assigned them. *)
Record GPTModel : Type := {
  parallel_output : bool;
  pre_process : bool;
  post_process : bool;
  fp16_lm_cross_entropy : bool;
  untie_embeddings_and_output_weights : bool;
  language_model : Backbone;
  _language_model_key : string;
  share_word_embeddings : bool;
  word_embeddings : option Embedding;
  _word_embeddings_for_head_key : option string;
}.

Definition set_language_model (lm : Backbone) (self : GPTModel) : GPTModel :=
  {| parallel_output := parallel_output self;
     pre_process := pre_process self;
     post_process := post_process self;
     fp16_lm_cross_entropy := fp16_lm_cross_entropy self;
     untie_embeddings_and_output_weights := untie_embeddings_and_output_weights self;
     language_model := lm;
     _language_model_key := _language_model_key self;
     share_word_embeddings := share_word_embeddings self;
     word_embeddings := word_embeddings self;
     _word_embeddings_for_head_key := _word_embeddings_for_head_key self |}.

Definition set_word_embeddings (e : Embedding) (self : GPTModel) : GPTModel :=
  {| parallel_output := parallel_output self;
     pre_process := pre_process self;
     post_process := post_process self;
     fp16_lm_cross_entropy := fp16_lm_cross_entropy self;
     untie_embeddings_and_output_weights := untie_embeddings_and_output_weights self;
     language_model := language_model self;
     _language_model_key := _language_model_key self;
     share_word_embeddings := share_word_embeddings self;
     word_embeddings := Some e;
     _word_embeddings_for_head_key := _word_embeddings_for_head_key self |}.

(** ** The functions the file imports *)

(** Each is a call into the framework on the part of the state it can
    reach: the world, or a module together with the world. *)
Class Framework : Type := {
  (* torch: conversion of one element between dtypes *)
  cast : dtype → dtype → elt → elt;
  (* megatron.get_args *)
  get_args : World → Args;
  (* .language_model.parallel_lm_logits(input_, word_embeddings_weight,
     parallel_output) *)
  parallel_lm_logits : Tensor → Tensor → bool → fw World Tensor;
  (* megatron.core.tensor_parallel.vocab_parallel_cross_entropy(
     vocab_parallel_logits, target) *)
  vocab_parallel_cross_entropy : Tensor → Tensor → fw World Tensor;
  (* .language_model.get_language_model(num_tokentypes, add_pooler,
     encoder_attn_mask_type, init_method, scaled_init_method, pre_process,
     post_process): the module and its key *)
  get_language_model :
    nat → bool → AttnMaskType → InitMethod → InitMethod → bool → bool →
    fw World (Backbone * string);
  (* self.language_model(input_ids, position_ids, attention_mask,
     inference_params=inference_params) *)
  language_model_call :
    Tensor → option Tensor → option Tensor → option pyval →
    fw (Backbone * World) Tensor;
  (* self.language_model.set_input_tensor(input_tensor) *)
  language_model_set_input_tensor : option Tensor → fw (Backbone * World) unit;
  (* self.language_model.output_layer.weight, when there is one *)
  language_model_output_layer_weight : Backbone → option Tensor;
  (* self.language_model.state_dict_for_save_checkpoint(prefix=prefix,
     keep_vars=keep_vars) *)
  language_model_state_dict_for_save_checkpoint :
    string → bool → fw (Backbone * World) pyval;
  (* self.language_model.load_state_dict(state_dict, strict=strict) *)
  language_model_load_state_dict : pyval → bool → fw (Backbone * World) unit;
  (* self.word_embeddings.state_dict(prefix=prefix, keep_vars=keep_vars) *)
  word_embeddings_state_dict : string → bool → fw (Embedding * World) pyval;
  (* self.word_embeddings.load_state_dict(state_dict, strict=strict) *)
  word_embeddings_load_state_dict : pyval → bool → fw (Embedding * World) unit;
  (* MegatronModule.word_embeddings_weight(self): it reads the instance *)
  word_embeddings_weight : GPTModel → string + Tensor;
  (* MegatronModule.initialize_word_embeddings(self, init_method_normal) *)
  initialize_word_embeddings : fw (GPTModel * World) unit;
}.

Context {F : Framework}.

(** ** post_language_model_processing *)

Definition post_language_model_processing
    (lm_output : Tensor) (labels : option Tensor) (logit_weights : Tensor)
    (parallel_output fp16_lm_cross_entropy : bool) : py World Tensor :=
  (* Output. Format [s b h] *)
  output ← call (parallel_lm_logits lm_output logit_weights parallel_output);
  match labels with
  | None =>
      (* [s b h] => [b s h] *)
      t ← lift_outcome (transpose 0 1 output);
      mret (contiguous t)
  | Some labels =>
      (* [b s] => [s b] *)
      t ← lift_outcome (transpose 0 1 labels);
      let labels := contiguous t in
      loss ← (if fp16_lm_cross_entropy then
                assert (bool_decide (dtype_of output = half));;
                call (vocab_parallel_cross_entropy output labels)
              else
                call (vocab_parallel_cross_entropy (float_ cast output) labels));
      (* [s b] => [b, s] *)
      t ← lift_outcome (transpose 0 1 loss);
      let loss := contiguous t in
      mret loss
  end.

(** The logits that the cross entropy receives: [output] when
    [fp16_lm_cross_entropy] is set, [output.float()] otherwise. *)
Definition loss_logits (fp16_lm_cross_entropy : bool) (output : Tensor)
    : Tensor :=
  if fp16_lm_cross_entropy then output else float_ cast output.

(** ** class GPTModel: the methods *)

(** Statements on [self] run on the instance and the world. *)
Definition on_world {A} (m : py World A) : py (GPTModel * World) A :=
  zoom snd (λ w s, (s.1, w)) m.

Definition on_language_model {A} (m : py (Backbone * World) A)
    : py (GPTModel * World) A :=
  zoom (λ s, (language_model s.1, s.2))
       (λ t s, (set_language_model t.1 s.1, t.2)) m.

(** [self.word_embeddings.m(...)]: the attribute has to exist. *)
Definition on_word_embeddings {A} (m : py (Embedding * World) A)
    : py (GPTModel * World) A :=
  λ s, match word_embeddings s.1 with
       | Some e => zoom (λ s, (e, s.2))
                        (λ t s, (set_word_embeddings t.1 s.1, t.2)) m s
       | None => (Raise (AttributeError "word_embeddings"), s)
       end.

(** Reading an attribute of [self]. *)
Definition attr {A} (f : GPTModel → A) : py (GPTModel * World) A :=
  gets (λ s, f s.1).

Definition attr_opt {A} (name : string) (f : GPTModel → option A)
    : py (GPTModel * World) A :=
  λ s, match f s.1 with
       | Some a => (Return a, s)
       | None => (Raise (AttributeError name), s)
       end.

(** [d[key]] *)
Definition subscript (d : gmap string pyval) (key : string) : outcome pyval :=
  match d !! key with
  | Some v => Return v
  | None => Raise (KeyError key)
  end.

(** The condition under which the last stage keeps its own copy of the
    word embeddings:
    [self.post_process and not self.pre_process and not
     self.untie_embeddings_and_output_weights]. *)
Definition saves_word_embeddings (self : GPTModel) : bool :=
  post_process self && negb (pre_process self)
  && negb (untie_embeddings_and_output_weights self).

(** A statement of [__init__] on the instance under construction; the
    constructor gives the instance when the statement returns. *)
Definition constructing {A} (self : GPTModel) (m : py (GPTModel * World) A)
    : py World GPTModel :=
  λ w, let '(r, s) := m (self, w) in
       (match r with Return _ => Return s.1 | Raise e => Raise e end, s.2).

Definition __init__ (num_tokentypes : nat)
    (parallel_output pre_process post_process : bool) : py World GPTModel :=
  args ← gets get_args;
  (* super().__init__(share_word_embeddings=not
     args.untie_embeddings_and_output_weights) *)
  let share_word_embeddings := negb (untie_embeddings_and_output_weights_of args) in
  r ← call (get_language_model
              num_tokentypes false causal
              (init_method_normal (init_method_std args))
              (scaled_init_method_normal (init_method_std args) (num_layers args))
              pre_process post_process);
  let self :=
    {| parallel_output := parallel_output;
       pre_process := pre_process;
       post_process := post_process;
       fp16_lm_cross_entropy := fp16_lm_cross_entropy_of args;
       untie_embeddings_and_output_weights :=
         untie_embeddings_and_output_weights_of args;
       language_model := r.1;
       _language_model_key := r.2;
       share_word_embeddings := share_word_embeddings;
       word_embeddings := None;
       _word_embeddings_for_head_key := None |} in
  if negb (untie_embeddings_and_output_weights_of args) then
    constructing self (call initialize_word_embeddings)
  else mret self.

Definition set_input_tensor (input_tensor : option Tensor)
    : py (GPTModel * World) unit :=
  on_language_model (call (language_model_set_input_tensor input_tensor)).

(** The third argument of the call in [forward]:
    [self.language_model.output_layer.weight
     if self.untie_embeddings_and_output_weights
     else self.word_embeddings_weight()]. *)
Definition logit_weights (self : GPTModel) : outcome Tensor :=
  if untie_embeddings_and_output_weights self then
    match language_model_output_layer_weight (language_model self) with
    | Some t => Return t
    | None => Raise (AttributeError "output_layer")
    end
  else
    match word_embeddings_weight self with
    | inr t => Return t
    | inl msg => Raise (FrameworkError msg)
    end.

Definition forward (input_ids : Tensor)
    (position_ids attention_mask labels : option Tensor)
    (inference_params : option pyval) : py (GPTModel * World) Tensor :=
  lm_output ← on_language_model
                (call (language_model_call input_ids position_ids
                         attention_mask inference_params));
  post ← attr post_process;
  if (post : bool) then
    self ← attr id;
    logit_weights ← lift_outcome (logit_weights self);
    parallel_output ← attr parallel_output;
    fp16_lm_cross_entropy ← attr fp16_lm_cross_entropy;
    on_world (post_language_model_processing
                lm_output labels logit_weights parallel_output
                fp16_lm_cross_entropy)
  else mret lm_output.

Definition state_dict_for_save_checkpoint (prefix : string) (keep_vars : bool)
    : py (GPTModel * World) (gmap string pyval) :=
  let state_dict_ : gmap string pyval := ∅ in
  v ← on_language_model
        (call (language_model_state_dict_for_save_checkpoint prefix keep_vars));
  key ← attr _language_model_key;
  let state_dict_ := <[key := v]> state_dict_ in
  (* Save word_embeddings. *)
  c ← attr saves_word_embeddings;
  if (c : bool) then
    v ← on_word_embeddings (call (word_embeddings_state_dict prefix keep_vars));
    key ← attr_opt "_word_embeddings_for_head_key" _word_embeddings_for_head_key;
    mret (<[key := v]> state_dict_)
  else mret state_dict_.

Definition load_state_dict (state_dict : gmap string pyval) (strict : bool)
    : py (GPTModel * World) unit :=
  (* Load word_embeddings. *)
  c ← attr saves_word_embeddings;
  (if (c : bool) then
     attr_opt "word_embeddings" word_embeddings;;
     key ← attr_opt "_word_embeddings_for_head_key" _word_embeddings_for_head_key;
     v ← lift_outcome (subscript state_dict key);
     on_word_embeddings (call (word_embeddings_load_state_dict v strict))
   else mret ());;
  key ← attr _language_model_key;
  state_dict ← (if bool_decide (key ∈ dom state_dict) then
                  lift_outcome (subscript state_dict key)
                else mret (PDict state_dict));
  on_language_model (call (language_model_load_state_dict state_dict strict)).

(** ** Vocabulary of the properties *)

(** The stage configuration of an instance. *)
Definition stage_flags (self : GPTModel) : bool * bool :=
  (pre_process self, post_process self).

(** A statement on an instance keeps the stage configuration, whether it
    returns or raises. *)
Definition preserves_stage_flags {A} (m : py (GPTModel * World) A) : Prop :=
  ∀ s, stage_flags (m s).2.1 = stage_flags s.1.

(** The parameter tensors of the two modules, by name:
    [dict(module.named_parameters())]. *)
Class ModuleParameters : Type := {
  language_model_parameters : Backbone → gmap string Tensor;
  word_embeddings_parameters : Embedding → gmap string Tensor;
}.

(** Every parameter tensor of an instance: those of the backbone and, when
    the instance has its own copy of the word embeddings, those of the
    copy. *)
Definition parameters {P : ModuleParameters} (self : GPTModel)
    : gmap string Tensor * option (gmap string Tensor) :=
  (language_model_parameters (language_model self),
   word_embeddings_parameters <$> word_embeddings self).

(** The base class gives an instance its own copy of the word embeddings,
    and the key under which it is saved, on the last stage that is not
    also the first one when the embeddings are tied, and only there; the
    key differs from the key of the backbone. *)
Definition head_embeddings_consistent (self : GPTModel) : Prop :=
  (if saves_word_embeddings self
   then is_Some (word_embeddings self)
        ∧ is_Some (_word_embeddings_for_head_key self)
   else word_embeddings self = None)
  ∧ _word_embeddings_for_head_key self ≠ Some (_language_model_key self).

(** Two instances of the same stage configuration and keys. *)
Definition same_configuration (a b : GPTModel) : Prop :=
  pre_process b = pre_process a
  ∧ post_process b = post_process a
  ∧ untie_embeddings_and_output_weights b
    = untie_embeddings_and_output_weights a
  ∧ _language_model_key b = _language_model_key a
  ∧ _word_embeddings_for_head_key b = _word_embeddings_for_head_key a.

(** The backbone of [a] saves its state, and the backbone of [b] loads
    what was saved and then has the parameters of the backbone of [a]. *)
Definition language_model_round_trip {P : ModuleParameters}
    (prefix : string) (keep_vars strict : bool) (a b : Backbone) : Prop :=
  ∀ w, ∃ v a' w1,
    language_model_state_dict_for_save_checkpoint prefix keep_vars (a, w)
    = (inr v, (a', w1))
    ∧ ∀ wb, ∃ b' wb',
        language_model_load_state_dict v strict (b, wb) = (inr (), (b', wb'))
        ∧ language_model_parameters b' = language_model_parameters a.

(** The same for the copies of the word embeddings. *)
Definition word_embeddings_round_trip {P : ModuleParameters}
    (prefix : string) (keep_vars strict : bool) (a b : Embedding) : Prop :=
  ∀ w, ∃ v a' w1,
    word_embeddings_state_dict prefix keep_vars (a, w) = (inr v, (a', w1))
    ∧ ∀ wb, ∃ b' wb',
        word_embeddings_load_state_dict v strict (b, wb) = (inr (), (b', wb'))
        ∧ word_embeddings_parameters b' = word_embeddings_parameters a.

(** The attributes of an instance other than its two modules. *)
Definition configuration (self : GPTModel)
    : bool * bool * bool * bool * bool * string * bool * option string :=
  (parallel_output self, pre_process self, post_process self,
   fp16_lm_cross_entropy self, untie_embeddings_and_output_weights self,
   _language_model_key self, share_word_embeddings self,
   _word_embeddings_for_head_key self).

(** A statement on an instance keeps what [f] reads of it, whether it
    returns or raises. *)
Definition keeps {A B} (f : GPTModel → B) (m : py (GPTModel * World) A)
    : Prop :=
  ∀ s, f (m s).2.1 = f s.1.

End model.

(** ** A framework over integer tensors

    An instance of the interface that computes: tensors of integers, a
    backbone that embeds the token ids, and modules whose state dicts are
    dictionaries of their parameters. *)

Module IntFramework.

Local Open Scope Z_scope.

Record IntBackbone : Type := {
  lm_params : gmap string (Tensor Z);
  lm_input_tensor : option (Tensor Z);
}.

Record IntEmbedding : Type := { weight : Tensor Z }.

#[export] Instance types : FrameworkTypes := {|
  elt := Z;
  World := Args Z;
  Backbone := IntBackbone;
  Embedding := IntEmbedding;
|}.

Definition zeros (shape : list nat) (d : dtype) : Tensor Z :=
  {| shape := shape; dtype_of := d; item := λ _, 0 |}.

Definition sum_upto (n : nat) (f : nat → Z) : Z :=
  foldr Z.add 0 (f <$> seq 0 n).

(** Modelled from the spec: parallel_lm_logits of language_model.py, the
    logits projection of the backbone output by the projection weights.
    With the shapes of the docstring of post_language_model_processing, an
    input [s, b, hidden_size] and weights [parallel_output_size,
    hidden_size], the product with the transposed weights has shape
    [s, b, parallel_output_size]. *)
Definition linear (input weight : Tensor Z) : string + Tensor Z :=
  match shape weight, last (shape input) with
  | [v; h], Some h' =>
      if decide (h = h') then
        inr {| shape := removelast (shape input) ++ [v];
               dtype_of := dtype_of input;
               item := λ idx,
                 sum_upto h (λ j, item input (removelast idx ++ [j])
                                  * item weight [List.last idx 0%nat; j]) |}
      else inl "size mismatch"
  | _, _ => inl "size mismatch"
  end.

(** A stand-in for the cross entropy with its shapes: logits [s, b, v] and
    targets [s, b] give one value per target. *)
Definition target_logit (logits target : Tensor Z) : string + Tensor Z :=
  if decide (shape target = removelast (shape logits)) then
    inr {| shape := shape target;
           dtype_of := float;
           item := λ idx, - item logits (idx ++ [Z.to_nat (item target idx)]) |}
  else inl "shape mismatch".

(** The backbone: the tensor received from the previous stage, or else
    the embeddings of the token ids, [b, s] to [s, b, h]. *)
Definition embed (input_ids : Tensor Z) (b : IntBackbone) : string + Tensor Z :=
  match lm_input_tensor b with
  | Some t => inr t
  | None =>
      match lm_params b !! "embedding.word_embeddings.weight", shape input_ids with
      | Some w, [nb; ns] =>
          match shape w with
          | [_; h] =>
              inr {| shape := [ns; nb; h];
                     dtype_of := dtype_of w;
                     item := λ idx,
                       match idx with
                       | [i; j; k] =>
                           item w [Z.to_nat (item input_ids [j; i]); k]
                       | _ => 0
                       end |}
          | _ => inl "embedding weight is not a matrix"
          end
      | _, _ => inl "no embedding on this stage"
      end
  end.

(** State dicts: the parameters under their names after [prefix]. *)
Definition params_state_dict (prefix : string) (ps : gmap string (Tensor Z))
    : pyval Z :=
  PDict (list_to_map
           ((λ kv, (prefix +:+ kv.1, PTensor kv.2)) <$> map_to_list ps)).

Definition tensor_at (d : gmap string (pyval Z)) (k : string)
    : option (Tensor Z) :=
  match d !! k with
  | Some (PTensor t) => Some t
  | _ => None
  end.

(** Loading: each parameter takes the tensor stored under its name; in
    strict mode the names have to be those of the parameters. *)
Definition params_load (ps : gmap string (Tensor Z)) (v : pyval Z)
    (strict : bool) : string + gmap string (Tensor Z) :=
  match v with
  | PDict d =>
      if strict && negb (bool_decide (dom d = dom ps)) then
        inl "Error(s) in loading state_dict"
      else
        inr (map_imap (λ k t, Some (default t (tensor_at d k))) ps)
  | PTensor _ => inl "state_dict is not a dict"
  end.

#[export] Instance err_mbind : MBind (sum string) := λ A B k m,
  match m with inr a => k a | inl msg => inl msg end.

Definition fw_pure {S A} (f : S → string + A * S) : fw S A :=
  λ s, match f s with
       | inr (a, s') => (inr a, s')
       | inl msg => (inl msg, s)
       end.

Definition vocab_size : nat := 5.
Definition hidden_size : nat := 4.

Definition build (pre_process post_process untie : bool) : IntBackbone :=
  let e : gmap string (Tensor Z) :=
    if pre_process then
      {[ "embedding.word_embeddings.weight" := zeros [vocab_size; hidden_size] float ]}
    else ∅ in
  let o : gmap string (Tensor Z) :=
    if post_process && untie then
      {[ "output_layer.weight" := zeros [vocab_size; hidden_size] float ]}
    else ∅ in
  {| lm_params := e ∪ o; lm_input_tensor := None |}.

Definition set_head (self : GPTModel) : GPTModel :=
  {| parallel_output := parallel_output self;
     pre_process := pre_process self;
     post_process := post_process self;
     fp16_lm_cross_entropy := fp16_lm_cross_entropy self;
     untie_embeddings_and_output_weights := untie_embeddings_and_output_weights self;
     language_model := language_model self;
     _language_model_key := _language_model_key self;
     share_word_embeddings := share_word_embeddings self;
     word_embeddings := Some {| weight := zeros [vocab_size; hidden_size] float |};
     _word_embeddings_for_head_key := Some "word_embeddings_for_head" |}.

#[export] Instance framework : Framework := {|
  cast := λ _ _ x, x;
  get_args := λ w, w;
  parallel_lm_logits := λ input weight _, fw_pure (λ w,
    a ← linear input weight; inr (a, w));
  vocab_parallel_cross_entropy := λ logits target, fw_pure (λ w,
    a ← target_logit logits target; inr (a, w));
  get_language_model := λ _ _ _ _ _ pre post, fw_pure (λ w,
    inr ((build pre post (untie_embeddings_and_output_weights_of w),
          "language_model"), w));
  language_model_call := λ input_ids _ _ _, fw_pure (λ s,
    a ← embed input_ids s.1; inr (a, s));
  language_model_set_input_tensor := λ t, fw_pure (λ s,
    inr ((), ({| lm_params := lm_params s.1; lm_input_tensor := t |}, s.2)));
  language_model_output_layer_weight := λ b,
    lm_params b !! "output_layer.weight";
  language_model_state_dict_for_save_checkpoint := λ prefix _, fw_pure (λ s,
    inr (params_state_dict prefix (lm_params s.1), s));
  language_model_load_state_dict := λ v strict, fw_pure (λ s,
    ps ← params_load (lm_params s.1) v strict;
    inr ((), ({| lm_params := ps; lm_input_tensor := lm_input_tensor s.1 |}, s.2)));
  word_embeddings_state_dict := λ prefix _, fw_pure (λ s,
    inr (params_state_dict prefix {[ "weight" := weight s.1 ]}, s));
  word_embeddings_load_state_dict := λ v strict, fw_pure (λ s,
    ps ← params_load {[ "weight" := weight s.1 ]} v strict;
    inr ((), ({| weight := default (weight s.1) (ps !! "weight") |}, s.2)));
  word_embeddings_weight := λ self,
    if pre_process self then
      from_option inr (inl "no embedding on this stage")
        (lm_params (language_model self) !! "embedding.word_embeddings.weight")
    else if negb (share_word_embeddings self) then
      inl "word_embeddings_weight() called for last stage, but share_word_embeddings is false"
    else
      from_option (λ e, inr (weight e)) (inl "no word_embeddings")
        (word_embeddings self);
  initialize_word_embeddings := fw_pure (λ s,
    if negb (share_word_embeddings s.1) then
      inl "initialize_word_embeddings() was called but share_word_embeddings is false"
    else if post_process s.1 && negb (pre_process s.1) then
      inr ((), (set_head s.1, s.2))
    else inr ((), s));
|}.

#[export] Instance module_parameters : ModuleParameters := {|
  language_model_parameters := lm_params;
  word_embeddings_parameters := λ e, {[ "weight" := weight e ]};
|}.

(** The same framework with a cross entropy that always fails. *)
Definition framework_without_loss : Framework := {|
  cast := cast (Framework:=framework);
  get_args := get_args (Framework:=framework);
  parallel_lm_logits := parallel_lm_logits (Framework:=framework);
  vocab_parallel_cross_entropy := λ _ _ w, (inl "no cross entropy", w);
  get_language_model := get_language_model (Framework:=framework);
  language_model_call := language_model_call (Framework:=framework);
  language_model_set_input_tensor := language_model_set_input_tensor (Framework:=framework);
  language_model_output_layer_weight :=
    language_model_output_layer_weight (Framework:=framework);
  language_model_state_dict_for_save_checkpoint :=
    language_model_state_dict_for_save_checkpoint (Framework:=framework);
  language_model_load_state_dict := language_model_load_state_dict (Framework:=framework);
  word_embeddings_state_dict := word_embeddings_state_dict (Framework:=framework);
  word_embeddings_load_state_dict := word_embeddings_load_state_dict (Framework:=framework);
  word_embeddings_weight := λ _, inl "no word embeddings";
  initialize_word_embeddings := initialize_word_embeddings (Framework:=framework);
|}.

(** A framework with a tensor-parallel group.  The cross entropy of
    megatron.core.tensor_parallel is a reduction over the ranks of the
    group, each of which holds the logits of a part of the vocabulary: the
    world is what the other ranks add to the loss of a position, and the
    loss of this rank is the sum. *)
Definition parallel_types : FrameworkTypes := {|
  elt := Z;
  World := Z;
  Backbone := IntBackbone;
  Embedding := IntEmbedding;
|}.

Section parallel.
#[local] Existing Instance parallel_types | 0.

Definition reduced_cross_entropy (logits target : Tensor Z) (others : Z)
    : string + Tensor Z :=
  match target_logit logits target with
  | inr t => inr {| shape := shape t;
                    dtype_of := dtype_of t;
                    item := λ idx, others + item t idx |}
  | inl msg => inl msg
  end.

Definition parallel_framework : Framework := {|
  cast := λ _ _ x, x;
  get_args := λ _,
    {| untie_embeddings_and_output_weights_of := true;
       fp16_lm_cross_entropy_of := false;
       init_method_std := 0;
       num_layers := 2 |};
  parallel_lm_logits := λ input weight _, fw_pure (λ w,
    a ← linear input weight; inr (a, w));
  vocab_parallel_cross_entropy := λ logits target, fw_pure (λ w,
    a ← reduced_cross_entropy logits target w; inr (a, w));
  get_language_model := λ _ _ _ _ _ pre post, fw_pure (λ w,
    inr ((build pre post true, "language_model"), w));
  language_model_call := λ input_ids _ _ _, fw_pure (λ s,
    a ← embed input_ids s.1; inr (a, s));
  language_model_set_input_tensor := λ t, fw_pure (λ s,
    inr ((), ({| lm_params := lm_params s.1; lm_input_tensor := t |}, s.2)));
  language_model_output_layer_weight := λ b,
    lm_params b !! "output_layer.weight";
  language_model_state_dict_for_save_checkpoint := λ prefix _, fw_pure (λ s,
    inr (params_state_dict prefix (lm_params s.1), s));
  language_model_load_state_dict := λ v strict, fw_pure (λ s,
    ps ← params_load (lm_params s.1) v strict;
    inr ((), ({| lm_params := ps; lm_input_tensor := lm_input_tensor s.1 |}, s.2)));
  word_embeddings_state_dict := λ prefix _, fw_pure (λ s,
    inr (params_state_dict prefix {[ "weight" := weight s.1 ]}, s));
  word_embeddings_load_state_dict := λ v strict, fw_pure (λ s,
    ps ← params_load {[ "weight" := weight s.1 ]} v strict;
    inr ((), ({| weight := default (weight s.1) (ps !! "weight") |}, s.2)));
  word_embeddings_weight := λ self,
    from_option (λ e, inr (weight e)) (inl "no word_embeddings")
      (word_embeddings self);
  initialize_word_embeddings := fw_pure (λ s, inr ((), s));
|}.

End parallel.

(** *** Instances and inputs *)

Definition args_untied : Args Z :=
  {| untie_embeddings_and_output_weights_of := true;
     fp16_lm_cross_entropy_of := false;
     init_method_std := 0;
     num_layers := 2 |}.

Definition args_tied : Args Z :=
  {| untie_embeddings_and_output_weights_of := false;
     fp16_lm_cross_entropy_of := false;
     init_method_std := 0;
     num_layers := 2 |}.

Definition stage (pre post untie fp16 : bool) (lm : IntBackbone)
    (head : option IntEmbedding) : GPTModel :=
  {| parallel_output := true;
     pre_process := pre;
     post_process := post;
     fp16_lm_cross_entropy := fp16;
     untie_embeddings_and_output_weights := untie;
     language_model := lm;
     _language_model_key := "language_model";
     share_word_embeddings := negb untie;
     word_embeddings := head;
     _word_embeddings_for_head_key :=
       if head is Some _ then Some "word_embeddings_for_head" else None |}.

(** One stage that is first and last, with untied embeddings. *)
Definition single_stage : GPTModel :=
  stage true true true false (build true true true) None.

(** The same with the precision flag set. *)
Definition single_stage_fp16 : GPTModel :=
  stage true true true true (build true true true) None.

(** A first stage that is not the last. *)
Definition first_stage : GPTModel :=
  stage true false true false (build true false true) None.

(** Token ids and labels of batch size 3 and sequence length 2. *)
Definition input_ids0 : Tensor Z :=
  {| shape := [3; 2]%nat; dtype_of := long; item := λ _, 1 |}.

Definition labels0 : Tensor Z :=
  {| shape := [3; 2]%nat; dtype_of := long; item := λ _, 2 |}.

(** What the backbone of [single_stage] returns on [input_ids0]: sequence
    length 2, batch size 3, hidden size 4. *)
Definition lm_output0 : Tensor Z :=
  {| shape := [2; 3; 4]%nat;
     dtype_of := float;
     item := λ idx, match idx with [i; j; k] => 0 | _ => 0 end |}.

(** A last stage with tied embeddings, and a second one of the same
    configuration with other parameters. *)
Definition ones (shape : list nat) (d : dtype) : Tensor Z :=
  {| shape := shape; dtype_of := d; item := λ _, 1 |}.

Definition last_stage : GPTModel :=
  stage false true false false
    {| lm_params := {[ "encoder.final_layernorm.weight" := ones [hidden_size] float ]};
       lm_input_tensor := None |}
    (Some {| weight := ones [vocab_size; hidden_size] float |}).

Definition last_stage_fresh : GPTModel :=
  stage false true false false
    {| lm_params := {[ "encoder.final_layernorm.weight" := zeros [hidden_size] float ]};
       lm_input_tensor := None |}
    (Some {| weight := zeros [vocab_size; hidden_size] float |}).

(** One stage that is first and last, with tied embeddings: the base
    class gives it no copy of the word embeddings and no key of the head. *)
Definition single_stage_tied : GPTModel :=
  stage true true false false (build true true false) None.

(** Labels of one axis. *)
Definition labels_flat : Tensor Z :=
  {| shape := [6]%nat; dtype_of := long; item := λ _, 2 |}.

(** A single stage with untied embeddings whose backbone was built
    without output layer. *)
Definition single_stage_no_output_layer : GPTModel :=
  stage true true true false (build true false true) None.

(** A last stage with tied embeddings that received the tensor of the
    previous stage, with and without its copy of the word embeddings. *)
Definition hidden0 : Tensor Z := ones [2; 3; 4]%nat float.

Definition last_stage_running : GPTModel :=
  stage false true false false
    {| lm_params := ∅; lm_input_tensor := Some hidden0 |}
    (Some {| weight := ones [vocab_size; hidden_size] float |}).

Definition last_stage_without_head : GPTModel :=
  stage false true false false
    {| lm_params := ∅; lm_input_tensor := Some hidden0 |} None.

(** What the copy of the word embeddings of [last_stage] saves. *)
Definition head_state_dict : pyval Z :=
  params_state_dict "" {[ "weight" := ones [vocab_size; hidden_size] float ]}.

End IntFramework.

(** * Properties *)

(** ** Statements *)

Section py_lemmas.
Context {S : Type}.

Lemma bind_unfold {A B} (m : py S A) (k : A → py S B) (s : S) :
  (m ≫= k) s = match m s with
               | (Return a, s') => k a s'
               | (Raise e, s') => (Raise e, s')
               end.
Proof. reflexivity. Qed.

Lemma bind_return {A B} (m : py S A) (k : A → py S B) s a s' :
  m s = (Return a, s') → (m ≫= k) s = k a s'.
Proof. intros Hm. by rewrite bind_unfold, Hm. Qed.

Lemma bind_raise {A B} (m : py S A) (k : A → py S B) s e s' :
  m s = (Raise e, s') → (m ≫= k) s = (Raise e, s').
Proof. intros Hm. by rewrite bind_unfold, Hm. Qed.

Lemma call_return {A} (f : fw S A) s a s' :
  f s = (inr a, s') → call f s = (Return a, s').
Proof. intros Hf. unfold call. by rewrite Hf. Qed.

Lemma call_raise {A} (f : fw S A) s msg s' :
  f s = (inl msg, s') → call f s = (Raise (FrameworkError msg), s').
Proof. intros Hf. unfold call. by rewrite Hf. Qed.

(** A call into the framework never ends in the assertion of this file. *)
Lemma call_not_assertion {A} (f : fw S A) s :
  (call f s).1 ≠ Raise AssertionError.
Proof. unfold call. by destruct (f s) as [[msg|a] s']. Qed.

Lemma call_state {A} (f : fw S A) s : (call f s).2 = (f s).2.
Proof. unfold call. by destruct (f s) as [[msg|a] s']. Qed.

End py_lemmas.

(** ** Tensors *)

Section torch_lemmas.
Context {elt : Type}.
Implicit Types t : Tensor elt.

Lemma swap_01 {A} (x y : A) (l : list A) : swap 0 1 (x :: y :: l) = y :: x :: l.
Proof. reflexivity. Qed.

Lemma swap_01_involutive {A} (l : list A) : swap 0 1 (swap 0 1 l) = l.
Proof. by destruct l as [|x [|y l]]. Qed.

Lemma swap_01_length {A} (l : list A) : length (swap 0 1 l) = length l.
Proof. by destruct l as [|x [|y l]]. Qed.

Lemma transpose_01_return t :
  2 ≤ dim t →
  transpose 0 1 t = Return {| shape := swap 0 1 (shape t);
                              dtype_of := dtype_of t;
                              item := λ idx, item t (swap 0 1 idx) |}.
Proof.
  intros Hdim. unfold transpose.
  rewrite !bool_decide_eq_true_2 by lia. done.
Qed.

Lemma transpose_01_raise t : dim t < 2 → transpose 0 1 t = Raise IndexError.
Proof.
  intros Hdim. unfold transpose.
  rewrite (bool_decide_eq_false_2 (1 < dim t)) by lia.
  by rewrite andb_false_r.
Qed.

Lemma transpose_inv dim0 dim1 t t' :
  transpose dim0 dim1 t = Return t' →
  dim0 < dim t ∧ dim1 < dim t
  ∧ shape t' = swap dim0 dim1 (shape t) ∧ dtype_of t' = dtype_of t.
Proof.
  unfold transpose. intros Ht.
  destruct (bool_decide (dim0 < dim t)) eqn:H0; [|done].
  destruct (bool_decide (dim1 < dim t)) eqn:H1; [|done].
  apply bool_decide_eq_true_1 in H0, H1. simpl in Ht.
  by inversion Ht; subst.
Qed.

Lemma transpose_not_assertion dim0 dim1 t :
  transpose dim0 dim1 t ≠ Raise AssertionError.
Proof.
  unfold transpose.
  by destruct (bool_decide (dim0 < dim t) && bool_decide (dim1 < dim t)).
Qed.

(** Transposing twice gives the shape and the dtype back, and the same
    element at every index. *)
Lemma transpose_01_twice t t1 t2 :
  transpose 0 1 t = Return t1 → transpose 0 1 t1 = Return t2 →
  shape t2 = shape t ∧ dtype_of t2 = dtype_of t
  ∧ ∀ idx, item t2 idx = item t idx.
Proof.
  intros H1 H2.
  destruct (transpose_inv _ _ _ _ H1) as (_ & Hd1 & _).
  destruct (transpose_inv _ _ _ _ H2) as (_ & Hd2 & _).
  rewrite transpose_01_return in H1 by lia.
  rewrite transpose_01_return in H2 by lia.
  inversion H1; subst; clear H1. inversion H2; subst; clear H2. simpl.
  split_and!; [apply swap_01_involutive|done|].
  intros idx. by rewrite swap_01_involutive.
Qed.

Lemma float_shape cast t : shape (float_ cast t) = shape t.
Proof. unfold float_. by case_decide. Qed.

Lemma float_dtype cast t : dtype_of (float_ cast t) = float.
Proof. unfold float_. by case_decide. Qed.

End torch_lemmas.

(** ** post_language_model_processing *)

Section post_processing.
Context {T : FrameworkTypes} {F : Framework}.
Implicit Types (lm_output logit_weights output : Tensor elt).
Implicit Types (labels : option (Tensor elt)) (w : World).

Lemma post_projection_raise lm_output labels logit_weights po fp16 w msg w1 :
  parallel_lm_logits lm_output logit_weights po w = (inl msg, w1) →
  post_language_model_processing lm_output labels logit_weights po fp16 w
  = (Raise (FrameworkError msg), w1).
Proof.
  intros Hp. unfold post_language_model_processing.
  by rewrite (bind_raise _ _ _ _ _ (call_raise _ _ _ _ Hp)).
Qed.

(** Without labels: the projected logits, transposed. *)
Lemma post_no_labels lm_output logit_weights po fp16 w output w1 :
  parallel_lm_logits lm_output logit_weights po w = (inr output, w1) →
  post_language_model_processing lm_output None logit_weights po fp16 w
  = (match transpose 0 1 output with
     | Return t => Return (contiguous t)
     | Raise e => Raise e
     end, w1).
Proof.
  intros Hp. unfold post_language_model_processing.
  rewrite (bind_return _ _ _ _ _ (call_return _ _ _ _ Hp)).
  rewrite bind_unfold. unfold lift_outcome.
  by destruct (transpose 0 1 output).
Qed.

(** With labels: the cross entropy of [loss_logits] against the transposed
    labels. *)
Lemma post_labels lm_output l logit_weights po fp16 w output w1 lt :
  parallel_lm_logits lm_output logit_weights po w = (inr output, w1) →
  transpose 0 1 l = Return lt →
  post_language_model_processing lm_output (Some l) logit_weights po fp16 w
  = if fp16 && negb (bool_decide (dtype_of output = half)) then
      (Raise AssertionError, w1)
    else
      match vocab_parallel_cross_entropy
              (loss_logits fp16 output) (contiguous lt) w1 with
      | (inr loss, w2) =>
          (match transpose 0 1 loss with
           | Return t => Return (contiguous t)
           | Raise e => Raise e
           end, w2)
      | (inl msg, w2) => (Raise (FrameworkError msg), w2)
      end.
Proof.
  intros Hp Hl. unfold post_language_model_processing.
  rewrite (bind_return _ _ _ _ _ (call_return _ _ _ _ Hp)).
  rewrite (bind_return _ _ w1 lt w1) by (unfold lift_outcome; by rewrite Hl).
  rewrite bind_unfold. unfold loss_logits.
  destruct fp16; simpl.
  - rewrite bind_unfold. unfold assert.
    destruct (bool_decide (dtype_of output = half)); simpl; [|done].
    unfold call.
    destruct (vocab_parallel_cross_entropy _ _ _) as [[msg|loss] w2]; [done|].
    rewrite bind_unfold. unfold lift_outcome.
    by destruct (transpose 0 1 loss).
  - unfold call.
    destruct (vocab_parallel_cross_entropy _ _ _) as [[msg|loss] w2]; [done|].
    rewrite bind_unfold. unfold lift_outcome.
    by destruct (transpose 0 1 loss).
Qed.

Lemma post_labels_raise lm_output l logit_weights po fp16 w output w1 :
  parallel_lm_logits lm_output logit_weights po w = (inr output, w1) →
  dim l < 2 →
  post_language_model_processing lm_output (Some l) logit_weights po fp16 w
  = (Raise IndexError, w1).
Proof.
  intros Hp Hl. unfold post_language_model_processing.
  rewrite (bind_return _ _ _ _ _ (call_return _ _ _ _ Hp)).
  rewrite (bind_raise _ _ w1 IndexError w1); [done|].
  unfold lift_outcome. by rewrite transpose_01_raise.
Qed.

End post_processing.

(** ** forward *)

Section forward.
Context {T : FrameworkTypes} {F : Framework}.
Implicit Types (self : GPTModel) (w : World).

Lemma on_world_unfold {A} (m : py World A) self w :
  on_world m (self, w) = ((m w).1, (self, (m w).2)).
Proof. unfold on_world, zoom. simpl. by destruct (m w). Qed.

Lemma on_language_model_call {A} (f : fw (Backbone * World) A) self w a lm' w1 :
  f (language_model self, w) = (inr a, (lm', w1)) →
  on_language_model (call f) (self, w)
  = (Return a, (set_language_model lm' self, w1)).
Proof.
  intros Hf. unfold on_language_model, zoom, call. simpl. by rewrite Hf.
Qed.

Lemma on_language_model_call_raise {A} (f : fw (Backbone * World) A)
    self w msg lm' w1 :
  f (language_model self, w) = (inl msg, (lm', w1)) →
  on_language_model (call f) (self, w)
  = (Raise (FrameworkError msg), (set_language_model lm' self, w1)).
Proof.
  intros Hf. unfold on_language_model, zoom, call. simpl. by rewrite Hf.
Qed.

(** What [forward] does once the backbone has returned [lm_output]. *)
Lemma forward_after_backbone self w input_ids position_ids attention_mask
    labels inference_params lm_output lm' w1 :
  language_model_call input_ids position_ids attention_mask inference_params
    (language_model self, w) = (inr lm_output, (lm', w1)) →
  forward input_ids position_ids attention_mask labels inference_params (self, w)
  = let self' := set_language_model lm' self in
    if post_process self then
      match logit_weights self' with
      | Return weights =>
          on_world (post_language_model_processing
                      lm_output labels weights (parallel_output self)
                      (fp16_lm_cross_entropy self)) (self', w1)
      | Raise e => (Raise e, (self', w1))
      end
    else (Return lm_output, (self', w1)).
Proof.
  intros Hlm. unfold forward.
  rewrite (bind_return _ _ _ _ _ (on_language_model_call _ _ _ _ _ _ Hlm)).
  rewrite bind_unfold. unfold attr at 1, gets. simpl.
  destruct (post_process self); [|done].
  rewrite bind_unfold. unfold attr at 1, gets. simpl.
  rewrite bind_unfold. unfold lift_outcome at 1.
  destruct (logit_weights _) as [weights|e]; [|done].
  by rewrite !bind_unfold.
Qed.

(** On the last stage, with the logit weights at hand. *)
Lemma forward_on_last_stage self w input_ids position_ids attention_mask
    labels inference_params lm_output lm' w1 weights :
  post_process self = true →
  language_model_call input_ids position_ids attention_mask inference_params
    (language_model self, w) = (inr lm_output, (lm', w1)) →
  logit_weights (set_language_model lm' self) = Return weights →
  forward input_ids position_ids attention_mask labels inference_params (self, w)
  = on_world (post_language_model_processing
                lm_output labels weights (parallel_output self)
                (fp16_lm_cross_entropy self))
      (set_language_model lm' self, w1).
Proof.
  intros Hpost Hlm Hw.
  rewrite (forward_after_backbone _ _ _ _ _ _ _ _ _ _ Hlm). simpl.
  by rewrite Hpost, Hw.
Qed.

End forward.

(** ** The claims on post_language_model_processing and forward *)

Section claims_forward.
Context {T : FrameworkTypes} {F : Framework}.
Implicit Types (self : GPTModel) (w : World).

(** C6: once the backbone has returned [lm_output], [forward] returns
    [lm_output] itself when [post_process] is false, and the result of
    [post_language_model_processing] on [lm_output] when [post_process] is
    true. *)
Theorem forward_post_process_routing self w input_ids position_ids
    attention_mask labels inference_params lm_output lm' w1 :
  language_model_call input_ids position_ids attention_mask inference_params
    (language_model self, w) = (inr lm_output, (lm', w1)) →
  let self' := set_language_model lm' self in
  (post_process self = false →
   forward input_ids position_ids attention_mask labels inference_params
     (self, w) = (Return lm_output, (self', w1)))
  ∧ (post_process self = true →
     ∀ weights, logit_weights self' = Return weights →
     forward input_ids position_ids attention_mask labels inference_params
       (self, w)
     = on_world (post_language_model_processing
                   lm_output labels weights (parallel_output self)
                   (fp16_lm_cross_entropy self)) (self', w1)).
Proof.
  intros Hlm self'.
  pose proof (forward_after_backbone self w input_ids position_ids
                attention_mask labels inference_params _ _ _ Hlm) as Hf.
  simpl in Hf. fold self' in Hf. split.
  - intros Hpost. by rewrite Hpost in Hf.
  - intros Hpost weights Hw. by rewrite Hpost, Hw in Hf.
Qed.

(** C1, as amended: with post-processing and without labels, [forward]
    returns a tensor whose shape is the shape of the projected logits,
    [parallel_lm_logits] of the backbone output, with the first two axes
    exchanged. *)
Theorem forward_no_labels_shape self w input_ids position_ids attention_mask
    inference_params lm_output lm' w1 weights output w2 :
  post_process self = true →
  language_model_call input_ids position_ids attention_mask inference_params
    (language_model self, w) = (inr lm_output, (lm', w1)) →
  logit_weights (set_language_model lm' self) = Return weights →
  parallel_lm_logits lm_output weights (parallel_output self) w1
  = (inr output, w2) →
  2 ≤ dim output →
  ∃ t, forward input_ids position_ids attention_mask None inference_params
         (self, w) = (Return t, (set_language_model lm' self, w2))
       ∧ shape t = swap 0 1 (shape output)
       ∧ dtype_of t = dtype_of output.
Proof.
  intros Hpost Hlm Hw Hp Hdim.
  rewrite (forward_on_last_stage _ _ _ _ _ _ _ _ _ _ _ Hpost Hlm Hw).
  rewrite on_world_unfold.
  rewrite (post_no_labels _ _ _ _ _ _ _ Hp).
  rewrite transpose_01_return by done. simpl.
  eexists. split; [reflexivity|]. done.
Qed.

(** C2: with labels of at least two axes and the projection returned, the
    assertion fails when the flag is set and the projected logits are
    not of dtype half, and does not fail when the flag is unset or the
    projected logits are of dtype half. *)
Theorem precision_assertion lm_output l weights po fp16 w output w1 :
  parallel_lm_logits lm_output weights po w = (inr output, w1) →
  2 ≤ dim l →
  (fp16 = true → dtype_of output ≠ half →
   post_language_model_processing lm_output (Some l) weights po fp16 w
   = (Raise AssertionError, w1))
  ∧ (fp16 = false ∨ dtype_of output = half →
     (post_language_model_processing lm_output (Some l) weights po fp16 w).1
     ≠ Raise AssertionError).
Proof.
  intros Hp Hdim.
  rewrite (post_labels _ _ _ _ _ _ _ _ _ Hp (transpose_01_return l Hdim)).
  split.
  - intros -> Hd. by rewrite bool_decide_eq_false_2.
  - intros Hok.
    assert (fp16 && negb (bool_decide (dtype_of output = half)) = false) as ->.
    { destruct Hok as [->|Hd]; [done|].
      rewrite bool_decide_eq_true_2 by done. apply andb_false_r. }
    destruct (vocab_parallel_cross_entropy _ _ _) as [[msg|loss] w2]; [done|].
    simpl. pose proof (transpose_not_assertion 0 1 loss).
    by destruct (transpose 0 1 loss).
Qed.

(** C9: without labels the assertion is not evaluated: the outcome does
    not depend on the flag, it is never the assertion failure, and when
    the projection returns logits of at least two axes, of any dtype, the
    call returns them transposed. *)
Theorem no_labels_no_precision_check lm_output weights po w :
  (∀ fp16 fp16',
     post_language_model_processing lm_output None weights po fp16 w
     = post_language_model_processing lm_output None weights po fp16' w)
  ∧ (∀ fp16,
       (post_language_model_processing lm_output None weights po fp16 w).1
       ≠ Raise AssertionError)
  ∧ (∀ output w1,
       parallel_lm_logits lm_output weights po w = (inr output, w1) →
       2 ≤ dim output →
       ∃ t, transpose 0 1 output = Return t
            ∧ ∀ fp16,
                post_language_model_processing lm_output None weights po fp16 w
                = (Return t, w1)).
Proof.
  destruct (parallel_lm_logits lm_output weights po w) as [[msg|output] w1] eqn:Hp.
  - split_and!.
    + intros. by rewrite !(post_projection_raise _ _ _ _ _ _ _ _ Hp).
    + intros. by rewrite (post_projection_raise _ _ _ _ _ _ _ _ Hp).
    + intros ?? [=].
  - split_and!.
    + intros. by rewrite !(post_no_labels _ _ _ _ _ _ _ Hp).
    + intros. rewrite (post_no_labels _ _ _ _ _ _ _ Hp). simpl.
      pose proof (transpose_not_assertion 0 1 output).
      by destruct (transpose 0 1 output).
    + intros ?? [= <- <-] Hdim. eexists. split.
      * by apply transpose_01_return.
      * intros. rewrite (post_no_labels _ _ _ _ _ _ _ Hp).
        by rewrite transpose_01_return.
Qed.

(** C4: with post-processing and labels, when the assertion passes and the
    cross entropy returns one loss per transposed label, [forward] returns
    the loss of the cross entropy transposed back, which has the shape of
    the labels: the labels are transposed before the cross entropy, the
    loss is computed on the transposed labels, and the loss is transposed
    after it. *)
Theorem forward_loss_shape self w input_ids position_ids attention_mask l
    inference_params lm_output lm' w1 weights output w2 lt loss w3 :
  post_process self = true →
  language_model_call input_ids position_ids attention_mask inference_params
    (language_model self, w) = (inr lm_output, (lm', w1)) →
  logit_weights (set_language_model lm' self) = Return weights →
  parallel_lm_logits lm_output weights (parallel_output self) w1
  = (inr output, w2) →
  (fp16_lm_cross_entropy self = true → dtype_of output = half) →
  transpose 0 1 l = Return lt →
  vocab_parallel_cross_entropy
    (loss_logits (fp16_lm_cross_entropy self) output) (contiguous lt) w2
  = (inr loss, w3) →
  shape loss = shape lt →
  ∃ t, forward input_ids position_ids attention_mask (Some l) inference_params
         (self, w) = (Return t, (set_language_model lm' self, w3))
       ∧ transpose 0 1 loss = Return t
       ∧ dtype_of t = dtype_of loss
       ∧ (∀ idx, item t idx = item loss (swap 0 1 idx))
       ∧ shape lt = swap 0 1 (shape l)
       ∧ shape t = swap 0 1 (shape loss)
       ∧ shape t = shape l.
Proof.
  intros Hpost Hlm Hw Hp Hhalf Hl Hx Hshape.
  rewrite (forward_on_last_stage _ _ _ _ _ _ _ _ _ _ _ Hpost Hlm Hw).
  rewrite on_world_unfold.
  rewrite (post_labels _ _ _ _ _ _ _ _ _ Hp Hl).
  assert (fp16_lm_cross_entropy self
          && negb (bool_decide (dtype_of output = half)) = false) as ->.
  { destruct (fp16_lm_cross_entropy self); [|done].
    rewrite bool_decide_eq_true_2 by auto. done. }
  rewrite Hx.
  destruct (transpose_inv _ _ _ _ Hl) as (_ & Hdim & Hlt & _).
  assert (2 ≤ dim loss) as Hdim'.
  { unfold dim in *. rewrite Hshape, Hlt, swap_01_length. lia. }
  rewrite transpose_01_return by done. simpl.
  eexists. split; [reflexivity|]. simpl.
  split_and!; [done|done|done|done|done|].
  by rewrite Hshape, Hlt, swap_01_involutive.
Qed.

(** The world that [post_language_model_processing] leaves is the one left
    by the last framework call it made: the projection, or the cross
    entropy called after it on the transposed labels. *)
Lemma post_world lm_output labels weights po fp16 w :
  (post_language_model_processing lm_output labels weights po fp16 w).2
  = (parallel_lm_logits lm_output weights po w).2
  ∨ ∃ output w1 l lt,
      parallel_lm_logits lm_output weights po w = (inr output, w1)
      ∧ labels = Some l
      ∧ transpose 0 1 l = Return lt
      ∧ (fp16 = true → dtype_of output = half)
      ∧ (post_language_model_processing lm_output labels weights po fp16 w).2
        = (vocab_parallel_cross_entropy (loss_logits fp16 output) lt w1).2.
Proof.
  destruct (parallel_lm_logits lm_output weights po w)
    as [[msg|output] w1] eqn:Hp.
  { left. by rewrite (post_projection_raise _ _ _ _ _ _ _ _ Hp). }
  destruct labels as [l|].
  - destruct (decide (2 ≤ dim l)) as [Hdim|Hdim].
    + pose proof (transpose_01_return l Hdim) as Hl.
      rewrite (post_labels _ _ _ _ _ _ _ _ _ Hp Hl).
      destruct (fp16 && negb (bool_decide (dtype_of output = half))) eqn:Hc.
      * by left.
      * right. eexists output, w1, l, _. split_and!; [done|done|exact Hl| |].
        -- intros ->. simpl in Hc. apply negb_false_iff in Hc.
           by apply bool_decide_eq_true_1 in Hc.
        -- unfold contiguous.
           by destruct (vocab_parallel_cross_entropy _ _ _) as [[msg|loss] w2].
    + left. by rewrite (post_labels_raise _ _ _ _ _ _ _ _ Hp) by lia.
  - left. by rewrite (post_no_labels _ _ _ _ _ _ _ Hp).
Qed.

(** Two calls with equal arguments in which the projection and the cross
    entropy answer the same have the same outcome. *)
Lemma post_outcome lm_output labels weights po fp16 w w' :
  (parallel_lm_logits lm_output weights po w).1
  = (parallel_lm_logits lm_output weights po w').1 →
  (∀ x y,
     (vocab_parallel_cross_entropy x y
        (parallel_lm_logits lm_output weights po w).2).1
     = (vocab_parallel_cross_entropy x y
          (parallel_lm_logits lm_output weights po w').2).1) →
  (post_language_model_processing lm_output labels weights po fp16 w).1
  = (post_language_model_processing lm_output labels weights po fp16 w').1.
Proof.
  destruct (parallel_lm_logits lm_output weights po w)
    as [r w1] eqn:Hp.
  destruct (parallel_lm_logits lm_output weights po w')
    as [r' w1'] eqn:Hp'.
  simpl. intros <- Hx.
  destruct r as [msg|output].
  { by rewrite (post_projection_raise _ _ _ _ _ _ _ _ Hp),
      (post_projection_raise _ _ _ _ _ _ _ _ Hp'). }
  destruct labels as [l|].
  - destruct (decide (2 ≤ dim l)) as [Hdim|Hdim].
    + pose proof (transpose_01_return l Hdim) as Hl.
      rewrite (post_labels _ _ _ _ _ _ _ _ _ Hp Hl),
        (post_labels _ _ _ _ _ _ _ _ _ Hp' Hl).
      destruct (fp16 && _); [done|].
      specialize (Hx (loss_logits fp16 output)
                    (contiguous {| shape := swap 0 1 (shape l);
                                   dtype_of := dtype_of l;
                                   item := λ idx, item l (swap 0 1 idx) |})).
      destruct (vocab_parallel_cross_entropy _ _ w1) as [r2 w2].
      destruct (vocab_parallel_cross_entropy _ _ w1') as [r2' w2'].
      simpl in Hx. subst r2'. by destruct r2.
    + by rewrite (post_labels_raise _ _ _ _ _ _ _ _ Hp),
        (post_labels_raise _ _ _ _ _ _ _ _ Hp') by lia.
  - by rewrite (post_no_labels _ _ _ _ _ _ _ Hp),
      (post_no_labels _ _ _ _ _ _ _ Hp').
Qed.


End claims_forward.

(** ** The stage configuration *)

Section stage.
Context {T : FrameworkTypes} {F : Framework}.
Implicit Types (self : GPTModel) (w : World).

Lemma preserves_bind {A B} (m : py (GPTModel * World) A)
    (k : A → py (GPTModel * World) B) :
  preserves_stage_flags m → (∀ a, preserves_stage_flags (k a)) →
  preserves_stage_flags (m ≫= k).
Proof.
  intros Hm Hk s. rewrite bind_unfold. specialize (Hm s).
  destruct (m s) as [[a|e] s']; simpl in *; [|done].
  by rewrite Hk.
Qed.

Lemma preserves_ret {A} (a : A) :
  preserves_stage_flags (mret a : py (GPTModel * World) A).
Proof. by intros s. Qed.

Lemma preserves_attr {A} (f : GPTModel → A) : preserves_stage_flags (attr f).
Proof. by intros s. Qed.

Lemma preserves_attr_opt {A} name (f : GPTModel → option A) :
  preserves_stage_flags (attr_opt name f).
Proof. intros s. unfold attr_opt. by destruct (f s.1). Qed.

Lemma preserves_lift_outcome {A} (o : outcome A) :
  preserves_stage_flags (lift_outcome o : py (GPTModel * World) A).
Proof. by intros s. Qed.

Lemma preserves_on_world {A} (m : py World A) :
  preserves_stage_flags (on_world m).
Proof. intros [self w]. by rewrite on_world_unfold. Qed.

Lemma preserves_on_language_model {A} (m : py (Backbone * World) A) :
  preserves_stage_flags (on_language_model m).
Proof.
  intros [self w]. unfold on_language_model, zoom. simpl.
  by destruct (m _) as [r [lm' w']].
Qed.

Lemma preserves_on_word_embeddings {A} (m : py (Embedding * World) A) :
  preserves_stage_flags (on_word_embeddings m).
Proof.
  intros [self w]. unfold on_word_embeddings, zoom. simpl.
  destruct (word_embeddings self); [|done].
  by destruct (m _) as [r [e' w']].
Qed.

Lemma preserves_if {A} (c : bool) (m1 m2 : py (GPTModel * World) A) :
  preserves_stage_flags m1 → preserves_stage_flags m2 →
  preserves_stage_flags (if c then m1 else m2).
Proof. by destruct c. Qed.

Create HintDb stage discriminated.
#[local] Hint Resolve preserves_ret preserves_attr preserves_attr_opt
  preserves_lift_outcome preserves_on_world preserves_on_language_model
  preserves_on_word_embeddings : stage.

Ltac stage :=
  repeat first
    [ apply preserves_bind; [|intros ?]
    | apply preserves_if
    | solve [auto with stage] ].

(** C8: [__init__] sets the two stage flags from its arguments, provided
    the initialiser of the base class keeps them, and [set_input_tensor],
    [forward], [state_dict_for_save_checkpoint] and [load_state_dict]
    leave them as they are, whether they return or raise. *)
Theorem stage_flags_fixed :
  (preserves_stage_flags (call initialize_word_embeddings) →
   ∀ num_tokentypes po pre post w self w',
     __init__ num_tokentypes po pre post w = (Return self, w') →
     stage_flags self = (pre, post))
  ∧ (∀ input_tensor, preserves_stage_flags (set_input_tensor input_tensor))
  ∧ (∀ input_ids position_ids attention_mask labels inference_params,
       preserves_stage_flags
         (forward input_ids position_ids attention_mask labels
            inference_params))
  ∧ (∀ prefix keep_vars,
       preserves_stage_flags (state_dict_for_save_checkpoint prefix keep_vars))
  ∧ (∀ state_dict strict,
       preserves_stage_flags (load_state_dict state_dict strict)).
Proof.
  split_and!.
  - intros Hinit num_tokentypes po pre post w self w'.
    unfold __init__. rewrite bind_unfold. unfold gets at 1.
    rewrite bind_unfold.
    destruct (call _ w) as [[r|e] w1]; [|done].
    destruct (negb _).
    + unfold constructing.
      match goal with |- context [call initialize_word_embeddings ?s] =>
        specialize (Hinit s);
        destruct (call initialize_word_embeddings s) as [[[]|e] [self' w2]]
      end; [|done].
      intros [= <- <-]. done.
    + by intros [= <- <-].
  - intros. unfold set_input_tensor. stage.
  - intros. unfold forward. stage.
  - intros. unfold state_dict_for_save_checkpoint. stage.
  - intros. unfold load_state_dict. stage.
Qed.

End stage.

(** ** Checkpoints *)

Section checkpoint.
Context {T : FrameworkTypes} {F : Framework}.
Implicit Types (self : GPTModel) (w : World).
Implicit Types (state_dict sd : gmap string (pyval elt)).

(** [state_dict_for_save_checkpoint], statement by statement. *)
Lemma state_dict_for_save_checkpoint_unfold self w prefix keep_vars :
  state_dict_for_save_checkpoint prefix keep_vars (self, w)
  = match language_model_state_dict_for_save_checkpoint prefix keep_vars
            (language_model self, w) with
    | (inl msg, (lm', w1)) =>
        (Raise (FrameworkError msg), (set_language_model lm' self, w1))
    | (inr v, (lm', w1)) =>
        let self1 := set_language_model lm' self in
        let state_dict_ := <[_language_model_key self := v]> ∅ in
        if saves_word_embeddings self then
          match word_embeddings self with
          | None => (Raise (AttributeError "word_embeddings"), (self1, w1))
          | Some e =>
              match word_embeddings_state_dict prefix keep_vars (e, w1) with
              | (inl msg, (e', w2)) =>
                  (Raise (FrameworkError msg), (set_word_embeddings e' self1, w2))
              | (inr v', (e', w2)) =>
                  match _word_embeddings_for_head_key self with
                  | None =>
                      (Raise (AttributeError "_word_embeddings_for_head_key"),
                       (set_word_embeddings e' self1, w2))
                  | Some k =>
                      (Return (<[k := v']> state_dict_),
                       (set_word_embeddings e' self1, w2))
                  end
              end
          end
        else (Return state_dict_, (self1, w1))
    end.
Proof.
  unfold state_dict_for_save_checkpoint.
  rewrite bind_unfold. unfold on_language_model at 1, zoom, call at 1. simpl.
  destruct (language_model_state_dict_for_save_checkpoint _ _ _)
    as [[msg|v] [lm' w1]]; [done|]. simpl.
  rewrite bind_unfold. unfold attr at 1, gets. simpl.
  rewrite bind_unfold. unfold attr at 1, gets. simpl.
  change (saves_word_embeddings (set_language_model lm' self))
    with (saves_word_embeddings self).
  destruct (saves_word_embeddings self); [|done].
  rewrite bind_unfold. unfold on_word_embeddings, zoom, call. simpl.
  destruct (word_embeddings self) as [e|]; [|done].
  destruct (word_embeddings_state_dict _ _ _) as [[msg|v'] [e' w2]]; [done|].
  simpl. rewrite bind_unfold. unfold attr_opt. simpl.
  by destruct (_word_embeddings_for_head_key self).
Qed.

(** The keys of the mapping that is returned. *)
Lemma state_dict_for_save_checkpoint_dom self w prefix keep_vars sd s' :
  state_dict_for_save_checkpoint prefix keep_vars (self, w) = (Return sd, s') →
  if saves_word_embeddings self then
    ∃ k, _word_embeddings_for_head_key self = Some k
         ∧ dom sd = {[k; _language_model_key self]}
  else dom sd = {[_language_model_key self]}.
Proof.
  rewrite state_dict_for_save_checkpoint_unfold.
  destruct (language_model_state_dict_for_save_checkpoint _ _ _)
    as [[msg|v] [lm' w1]]; [done|]. simpl.
  destruct (saves_word_embeddings self).
  - destruct (word_embeddings self) as [e|]; [|done].
    destruct (word_embeddings_state_dict _ _ _) as [[msg|v'] [e' w2]]; [done|].
    destruct (_word_embeddings_for_head_key self) as [k|]; [|done].
    intros [= <- <-]. exists k. split; [done|].
    by rewrite !dom_insert_L, dom_empty_L, (right_id_L ∅ (∪)).
  - intros [= <- <-].
    by rewrite dom_insert_L, dom_empty_L, (right_id_L ∅ (∪)).
Qed.

(** C3: the mapping that [state_dict_for_save_checkpoint] returns has a key
    other than that of the language model exactly when the instance is a
    last stage that is not the first stage and has tied embeddings, and
    the key is then the key of the word embeddings for the head; on every
    other instance, and so with untied embeddings, the key of the language
    model is the only key. *)
Theorem state_dict_word_embeddings_key self w prefix keep_vars sd s' :
  state_dict_for_save_checkpoint prefix keep_vars (self, w) = (Return sd, s') →
  _language_model_key self ∈ dom sd
  ∧ (∀ k, k ≠ _language_model_key self →
          (k ∈ dom sd
           ↔ _word_embeddings_for_head_key self = Some k
             ∧ post_process self = true ∧ pre_process self = false
             ∧ untie_embeddings_and_output_weights self = false))
  ∧ (post_process self = true ∧ pre_process self = false
     ∧ untie_embeddings_and_output_weights self = false →
     ∃ k, _word_embeddings_for_head_key self = Some k ∧ k ∈ dom sd)
  ∧ (¬ (post_process self = true ∧ pre_process self = false
        ∧ untie_embeddings_and_output_weights self = false) →
     dom sd = {[_language_model_key self]})
  ∧ (untie_embeddings_and_output_weights self = true →
     dom sd = {[_language_model_key self]}).
Proof.
  intros Hsd. apply state_dict_for_save_checkpoint_dom in Hsd.
  assert (saves_word_embeddings self = true
          ↔ post_process self = true ∧ pre_process self = false
            ∧ untie_embeddings_and_output_weights self = false) as Hc.
  { unfold saves_word_embeddings.
    destruct (post_process self), (pre_process self),
      (untie_embeddings_and_output_weights self); simpl;
      split; (done || by intros (?&?&?)). }
  destruct (saves_word_embeddings self).
  - destruct Hsd as (kh & Hkh & ->). split_and!.
    + rewrite elem_of_union, !elem_of_singleton. by right.
    + intros k Hne. rewrite elem_of_union, !elem_of_singleton. split.
      * intros [->|?]; [|done]. split; [done|]. by apply Hc.
      * intros [Hk _]. left. congruence.
    + intros _. exists kh. split; [done|].
      rewrite elem_of_union, !elem_of_singleton. by left.
    + intros Hn. destruct Hn. by apply Hc.
    + intros Hu. destruct Hc as [Hc _].
      destruct (Hc eq_refl) as (_ & _ & Hu'). congruence.
  - rewrite Hsd. split_and!.
    + by apply elem_of_singleton.
    + intros k Hne. rewrite elem_of_singleton. split; [done|].
      intros [_ Hcond]. by apply Hc in Hcond.
    + intros Hcond. by apply Hc in Hcond.
    + done.
    + done.
Qed.

(** [load_state_dict], statement by statement. *)
Lemma load_state_dict_unfold self w sd strict :
  load_state_dict sd strict (self, w)
  = let load_language_model :=
      on_language_model
        (call (language_model_load_state_dict
                 (match sd !! _language_model_key self with
                  | Some sub => sub
                  | None => PDict sd
                  end) strict)) in
    if saves_word_embeddings self then
      match word_embeddings self with
      | None => (Raise (AttributeError "word_embeddings"), (self, w))
      | Some e =>
          match _word_embeddings_for_head_key self with
          | None =>
              (Raise (AttributeError "_word_embeddings_for_head_key"), (self, w))
          | Some k =>
              match sd !! k with
              | None => (Raise (KeyError k), (self, w))
              | Some v =>
                  match word_embeddings_load_state_dict v strict (e, w) with
                  | (inl msg, (e', w1)) =>
                      (Raise (FrameworkError msg), (set_word_embeddings e' self, w1))
                  | (inr _, (e', w1)) =>
                      load_language_model (set_word_embeddings e' self, w1)
                  end
              end
          end
      end
    else load_language_model (self, w).
Proof.
  assert (∀ s : GPTModel * World,
    (key ← attr _language_model_key;
     state_dict ← (if bool_decide (key ∈ dom sd)
                   then lift_outcome (subscript sd key)
                   else mret (PDict sd));
     on_language_model (call (language_model_load_state_dict state_dict strict)))
      s
    = on_language_model
        (call (language_model_load_state_dict
                 (match sd !! _language_model_key s.1 with
                  | Some sub => sub
                  | None => PDict sd
                  end) strict)) s) as Hlm.
  { intros s. rewrite bind_unfold. unfold attr, gets. simpl.
    rewrite bind_unfold. unfold subscript, lift_outcome.
    destruct (sd !! _language_model_key s.1) as [sub|] eqn:Hk.
    - by rewrite bool_decide_eq_true_2 by (apply elem_of_dom; eauto).
    - rewrite bool_decide_eq_false_2 by by apply not_elem_of_dom.
      done. }
  unfold load_state_dict.
  rewrite bind_unfold. unfold attr at 1, gets. simpl.
  destruct (saves_word_embeddings self).
  - rewrite bind_unfold.
    rewrite (bind_unfold (attr_opt _ _)). unfold attr_opt at 1. simpl.
    destruct (word_embeddings self) as [e|] eqn:He; [|done].
    rewrite (bind_unfold (attr_opt _ _)). unfold attr_opt at 1. simpl.
    destruct (_word_embeddings_for_head_key self) as [k|]; [|done].
    rewrite (bind_unfold (lift_outcome _)).
    unfold lift_outcome at 1, subscript at 1.
    destruct (sd !! k) as [v|]; [|done].
    unfold on_word_embeddings, zoom, call at 1. simpl. rewrite He.
    destruct (word_embeddings_load_state_dict _ _ _) as [[msg|[]] [e' w1]];
      [done|].
    by rewrite Hlm.
  - rewrite bind_unfold. simpl. by rewrite Hlm.
Qed.

(** C10: the loader of the backbone receives the entry under the key of
    the language model when the mapping has that key, and the whole
    mapping otherwise: at once on an instance that keeps no copy of the
    word embeddings, and after the copy has loaded its entry on an
    instance that keeps one. *)
Theorem load_state_dict_backbone_argument self w sd strict :
  let load_language_model arg :=
    on_language_model (call (language_model_load_state_dict arg strict)) in
  ∀ s1,
    (saves_word_embeddings self = false ∧ s1 = (self, w))
    ∨ (∃ e k v e' w1,
         saves_word_embeddings self = true
         ∧ word_embeddings self = Some e
         ∧ _word_embeddings_for_head_key self = Some k
         ∧ sd !! k = Some v
         ∧ word_embeddings_load_state_dict v strict (e, w) = (inr (), (e', w1))
         ∧ s1 = (set_word_embeddings e' self, w1)) →
    (_language_model_key self ∉ dom sd →
     load_state_dict sd strict (self, w) = load_language_model (PDict sd) s1)
    ∧ (∀ sub, sd !! _language_model_key self = Some sub →
       load_state_dict sd strict (self, w) = load_language_model sub s1).
Proof.
  intros load_language_model s1 Hs1.
  rewrite load_state_dict_unfold. simpl.
  assert (load_state_dict_head :
    (if saves_word_embeddings self then
       match word_embeddings self with
       | None => (Raise (AttributeError "word_embeddings"), (self, w))
       | Some e =>
           match _word_embeddings_for_head_key self with
           | None =>
               (Raise (AttributeError "_word_embeddings_for_head_key"), (self, w))
           | Some k =>
               match sd !! k with
               | None => (Raise (KeyError k), (self, w))
               | Some v =>
                   match word_embeddings_load_state_dict v strict (e, w) with
                   | (inl msg, (e', w1)) =>
                       (Raise (FrameworkError msg),
                        (set_word_embeddings e' self, w1))
                   | (inr _, (e', w1)) =>
                       load_language_model
                         (match sd !! _language_model_key self with
                          | Some sub => sub
                          | None => PDict sd
                          end) (set_word_embeddings e' self, w1)
                   end
               end
           end
       end
     else load_language_model
            (match sd !! _language_model_key self with
             | Some sub => sub
             | None => PDict sd
             end) (self, w))
    = load_language_model
        (match sd !! _language_model_key self with
         | Some sub => sub
         | None => PDict sd
         end) s1).
  { destruct Hs1 as [[-> ->]|(e & k & v & e' & w1 & -> & -> & -> & -> & -> & ->)];
      done. }
  unfold load_language_model in *. rewrite load_state_dict_head.
  split.
  - intros Hk. apply not_elem_of_dom in Hk. by rewrite Hk.
  - intros sub Hk. by rewrite Hk.
Qed.

End checkpoint.

(** ** Saving and loading again *)

Section round_trip.
Context {T : FrameworkTypes} {F : Framework} {P : ModuleParameters}.
Implicit Types (a b : GPTModel) (w : World).

Lemma saves_word_embeddings_same a b :
  same_configuration a b → saves_word_embeddings b = saves_word_embeddings a.
Proof.
  intros (Hpre & Hpost & Huntie & _). unfold saves_word_embeddings.
  by rewrite Hpre, Hpost, Huntie.
Qed.

(** C5: when the two modules of an instance save their state and the
    modules of an instance of the same stage configuration load what was
    saved, [load_state_dict] on the mapping of
    [state_dict_for_save_checkpoint] returns and leaves the second instance
    with the parameter tensors of the first. *)
Theorem checkpoint_round_trip a b w wb prefix keep_vars strict :
  same_configuration a b →
  head_embeddings_consistent a →
  head_embeddings_consistent b →
  language_model_round_trip prefix keep_vars strict
    (language_model a) (language_model b) →
  (∀ ea eb, word_embeddings a = Some ea → word_embeddings b = Some eb →
            word_embeddings_round_trip prefix keep_vars strict ea eb) →
  ∃ sd a' w1 b' w2,
    state_dict_for_save_checkpoint prefix keep_vars (a, w)
    = (Return sd, (a', w1))
    ∧ load_state_dict sd strict (b, wb) = (Return (), (b', w2))
    ∧ parameters b' = parameters a.
Proof.
  intros Hsame [Ha Hka] [Hb Hkb] Hlm Hwe.
  pose proof (saves_word_embeddings_same a b Hsame) as Hsaves.
  destruct Hsame as (_ & _ & _ & Hkey & Hhead).
  rewrite state_dict_for_save_checkpoint_unfold.
  destruct (Hlm w) as (v & lm' & w1 & -> & Hload). simpl.
  rewrite Hsaves in Hb.
  destruct (saves_word_embeddings a) eqn:Hc.
  - destruct Ha as [[ea Hea] [k Hk]]. destruct Hb as [[eb Heb] _].
    rewrite Hea, Hk.
    destruct (Hwe ea eb Hea Heb w1) as (v' & ea' & w2 & -> & Hload').
    destruct (Hload' wb) as (eb' & wb1 & Hl' & Hpe).
    destruct (Hload wb1) as (lmb & wb2 & Hl & Hpl).
    do 5 eexists. split; [reflexivity|].
    rewrite load_state_dict_unfold, Hsaves, Heb, Hhead, Hk, Hkey. simpl.
    rewrite lookup_insert_eq, Hl'.
    rewrite lookup_insert_ne by congruence. rewrite lookup_insert_eq.
    rewrite (on_language_model_call _ (set_word_embeddings eb' b) _ _ _ _ Hl).
    split; [reflexivity|].
    unfold parameters. simpl. by rewrite Hpl, Hpe, Hea.
  - destruct (Hload wb) as (lmb & wb2 & Hl & Hpl).
    do 5 eexists. split; [reflexivity|].
    rewrite load_state_dict_unfold, Hsaves, Hkey. simpl.
    rewrite lookup_insert_eq.
    rewrite (on_language_model_call _ _ _ _ _ _ Hl).
    split; [reflexivity|].
    unfold parameters. simpl. by rewrite Hpl, Ha, Hb.
Qed.

End round_trip.

(** * Further properties *)

(** ** Errors and arguments of post_language_model_processing *)

Section post_processing_more.
Context {T : FrameworkTypes} {F : Framework}.
Implicit Types (lm_output weights output : Tensor elt) (w : World).

(** The assertion failure has one cause: whenever
    [post_language_model_processing] ends in it, labels of at least two
    axes were given, the flag was set, and the projection had returned
    logits whose dtype is not half. *)
Theorem assertion_failure_cause lm_output labels weights po fp16 w :
  (post_language_model_processing lm_output labels weights po fp16 w).1
  = Raise AssertionError →
  ∃ l output w1,
    labels = Some l ∧ 2 ≤ dim l ∧ fp16 = true
    ∧ parallel_lm_logits lm_output weights po w = (inr output, w1)
    ∧ dtype_of output ≠ half.
Proof.
  destruct (parallel_lm_logits lm_output weights po w)
    as [[msg|output] w1] eqn:Hp.
  { by rewrite (post_projection_raise _ _ _ _ _ _ _ _ Hp). }
  destruct labels as [l|].
  - destruct (decide (2 ≤ dim l)) as [Hdim|Hdim].
    + rewrite (post_labels _ _ _ _ _ _ _ _ _ Hp (transpose_01_return l Hdim)).
      destruct fp16; simpl.
      * destruct (bool_decide (dtype_of output = half)) eqn:Hd; simpl.
        -- destruct (vocab_parallel_cross_entropy _ _ _) as [[msg|loss] w2];
             [done|]. simpl.
           pose proof (transpose_not_assertion 0 1 loss).
           by destruct (transpose 0 1 loss).
        -- intros _. apply bool_decide_eq_false_1 in Hd.
           by exists l, output, w1.
      * destruct (vocab_parallel_cross_entropy _ _ _) as [[msg|loss] w2];
          [done|]. simpl.
        pose proof (transpose_not_assertion 0 1 loss).
        by destruct (transpose 0 1 loss).
    + rewrite (post_labels_raise _ _ _ _ _ _ _ _ Hp) by lia. done.
  - rewrite (post_no_labels _ _ _ _ _ _ _ Hp). simpl.
    pose proof (transpose_not_assertion 0 1 output).
    by destruct (transpose 0 1 output).
Qed.

(** Labels of fewer than two axes are refused by their transposition,
    which comes before the assertion and the cross entropy: the outcome is
    an index error whatever the flag and the dtype of the logits, and the
    world is the one the projection left. *)
Theorem labels_of_one_axis_raise lm_output l weights po fp16 w output w1 :
  parallel_lm_logits lm_output weights po w = (inr output, w1) →
  dim l < 2 →
  post_language_model_processing lm_output (Some l) weights po fp16 w
  = (Raise IndexError, w1).
Proof. intros Hp Hdim. by apply post_labels_raise with output. Qed.

(** The logits that reach the cross entropy are of dtype half when the
    flag is set and of dtype float when it is not, with the shape of the
    projected logits; logits that are float already are passed as they
    are. *)
Theorem cross_entropy_logits lm_output l weights po fp16 w output w1 lt :
  parallel_lm_logits lm_output weights po w = (inr output, w1) →
  transpose 0 1 l = Return lt →
  (fp16 = true → dtype_of output = half) →
  ∃ logits,
    dtype_of logits = (if fp16 then half else float)
    ∧ shape logits = shape output
    ∧ (dtype_of output = float → logits = output)
    ∧ post_language_model_processing lm_output (Some l) weights po fp16 w
      = match vocab_parallel_cross_entropy logits lt w1 with
        | (inr loss, w2) =>
            (match transpose 0 1 loss with
             | Return t => Return t
             | Raise e => Raise e
             end, w2)
        | (inl msg, w2) => (Raise (FrameworkError msg), w2)
        end.
Proof.
  intros Hp Hl Hhalf. exists (loss_logits fp16 output).
  split_and!.
  - unfold loss_logits. destruct fp16; [auto|apply float_dtype].
  - unfold loss_logits. destruct fp16; [done|apply float_shape].
  - intros Hd. unfold loss_logits, float_. destruct fp16; [done|].
    by rewrite decide_True.
  - rewrite (post_labels _ _ _ _ _ _ _ _ _ Hp Hl).
    assert (fp16 && negb (bool_decide (dtype_of output = half)) = false) as ->.
    { destruct fp16; [|done]. by rewrite bool_decide_eq_true_2 by auto. }
    done.
Qed.

End post_processing_more.

(** Without labels the cross entropy and the conversion of elements are
    never used: two frameworks with the same projection give the same
    outcome, whatever their cross entropies and the flags. *)
Theorem no_labels_no_cross_entropy {T : FrameworkTypes} (F1 F2 : Framework)
    (lm_output weights : Tensor elt) po fp16 fp16' (w : World) :
  parallel_lm_logits (Framework:=F1) lm_output weights po w
  = parallel_lm_logits (Framework:=F2) lm_output weights po w →
  post_language_model_processing (F:=F1) lm_output None weights po fp16 w
  = post_language_model_processing (F:=F2) lm_output None weights po fp16' w.
Proof.
  intros Hp.
  destruct (parallel_lm_logits (Framework:=F2) lm_output weights po w)
    as [[msg|output] w1] eqn:Hp2.
  - by rewrite (post_projection_raise (F:=F1) _ _ _ _ _ _ _ _ Hp),
      (post_projection_raise (F:=F2) _ _ _ _ _ _ _ _ Hp2).
  - by rewrite (post_no_labels (F:=F1) _ _ _ _ _ _ _ Hp),
      (post_no_labels (F:=F2) _ _ _ _ _ _ _ Hp2).
Qed.

(** ** Elements, weights and errors of forward *)

Section forward_more.
Context {T : FrameworkTypes} {F : Framework}.
Implicit Types (self : GPTModel) (w : World).

Lemma transpose_01_item (t t' : Tensor elt) i j rest :
  transpose 0 1 t = Return t' →
  item t' (i :: j :: rest) = item t (j :: i :: rest).
Proof.
  intros Ht. destruct (transpose_inv _ _ _ _ Ht) as (_ & Hdim & _).
  rewrite transpose_01_return in Ht by lia. by inversion Ht.
Qed.

(** Without labels the tensor that [forward] returns holds the projected
    logits with the first two indices exchanged: its element at
    [b, s, ...] is the element of the logits at [s, b, ...]. *)
Theorem forward_no_labels_elements self w input_ids position_ids
    attention_mask inference_params lm_output lm' w1 weights output w2 :
  post_process self = true →
  language_model_call input_ids position_ids attention_mask inference_params
    (language_model self, w) = (inr lm_output, (lm', w1)) →
  logit_weights (set_language_model lm' self) = Return weights →
  parallel_lm_logits lm_output weights (parallel_output self) w1
  = (inr output, w2) →
  2 ≤ dim output →
  ∃ t, forward input_ids position_ids attention_mask None inference_params
         (self, w) = (Return t, (set_language_model lm' self, w2))
       ∧ ∀ i j rest, item t (i :: j :: rest) = item output (j :: i :: rest).
Proof.
  intros Hpost Hlm Hw Hp Hdim.
  rewrite (forward_on_last_stage _ _ _ _ _ _ _ _ _ _ _ Hpost Hlm Hw).
  rewrite on_world_unfold, (post_no_labels _ _ _ _ _ _ _ Hp).
  pose proof (transpose_01_return output Hdim) as Ht. rewrite Ht. simpl.
  eexists. split; [reflexivity|].
  intros i j rest. by apply transpose_01_item.
Qed.

(** With labels the cross entropy receives the labels with the first two
    indices exchanged, and [forward] returns its loss with the two indices
    exchanged back: the loss at [b, s] is the one computed for the label
    at [b, s]. *)
Theorem forward_loss_elements self w input_ids position_ids attention_mask l
    inference_params lm_output lm' w1 weights output w2 lt loss w3 :
  post_process self = true →
  language_model_call input_ids position_ids attention_mask inference_params
    (language_model self, w) = (inr lm_output, (lm', w1)) →
  logit_weights (set_language_model lm' self) = Return weights →
  parallel_lm_logits lm_output weights (parallel_output self) w1
  = (inr output, w2) →
  (fp16_lm_cross_entropy self = true → dtype_of output = half) →
  transpose 0 1 l = Return lt →
  vocab_parallel_cross_entropy
    (loss_logits (fp16_lm_cross_entropy self) output) lt w2
  = (inr loss, w3) →
  2 ≤ dim loss →
  ∃ t, forward input_ids position_ids attention_mask (Some l) inference_params
         (self, w) = (Return t, (set_language_model lm' self, w3))
       ∧ dtype_of t = dtype_of loss
       ∧ (∀ i j rest, item lt (i :: j :: rest) = item l (j :: i :: rest))
       ∧ (∀ i j rest, item t (i :: j :: rest) = item loss (j :: i :: rest)).
Proof.
  intros Hpost Hlm Hw Hp Hhalf Hl Hx Hdim.
  rewrite (forward_on_last_stage _ _ _ _ _ _ _ _ _ _ _ Hpost Hlm Hw).
  rewrite on_world_unfold, (post_labels _ _ _ _ _ _ _ _ _ Hp Hl).
  assert (fp16_lm_cross_entropy self
          && negb (bool_decide (dtype_of output = half)) = false) as ->.
  { destruct (fp16_lm_cross_entropy self); [|done].
    by rewrite bool_decide_eq_true_2 by auto. }
  change (contiguous lt) with lt. rewrite Hx.
  pose proof (transpose_01_return loss Hdim) as Ht. rewrite Ht. simpl.
  eexists. split; [reflexivity|]. split; [done|]. split.
  - intros i j rest. by apply transpose_01_item.
  - intros i j rest. by apply transpose_01_item.
Qed.

(** The weights of the projection: with untied embeddings the weight of
    the output layer of the backbone, as it is after the call of the
    backbone, and with tied embeddings what [word_embeddings_weight] gives
    on the instance. *)
Theorem forward_logit_weights self w input_ids position_ids attention_mask
    labels inference_params lm_output lm' w1 :
  post_process self = true →
  language_model_call input_ids position_ids attention_mask inference_params
    (language_model self, w) = (inr lm_output, (lm', w1)) →
  ∀ weights,
    (if untie_embeddings_and_output_weights self
     then language_model_output_layer_weight lm' = Some weights
     else word_embeddings_weight (set_language_model lm' self) = inr weights) →
    forward input_ids position_ids attention_mask labels inference_params
      (self, w)
    = on_world (post_language_model_processing
                  lm_output labels weights (parallel_output self)
                  (fp16_lm_cross_entropy self))
        (set_language_model lm' self, w1).
Proof.
  intros Hpost Hlm weights Hw.
  apply forward_on_last_stage; [done|done|].
  unfold logit_weights. simpl.
  destruct (untie_embeddings_and_output_weights self); by rewrite Hw.
Qed.

(** When the weights cannot be had, [forward] raises after the backbone
    has run and before the projection: an attribute error for a backbone
    without output layer, and the error of [word_embeddings_weight]
    otherwise.  The instance keeps what the backbone did to it. *)
Theorem forward_without_logit_weights self w input_ids position_ids
    attention_mask labels inference_params lm_output lm' w1 :
  post_process self = true →
  language_model_call input_ids position_ids attention_mask inference_params
    (language_model self, w) = (inr lm_output, (lm', w1)) →
  (untie_embeddings_and_output_weights self = true →
   language_model_output_layer_weight lm' = None →
   forward input_ids position_ids attention_mask labels inference_params
     (self, w)
   = (Raise (AttributeError "output_layer"), (set_language_model lm' self, w1)))
  ∧ (∀ msg,
       untie_embeddings_and_output_weights self = false →
       word_embeddings_weight (set_language_model lm' self) = inl msg →
       forward input_ids position_ids attention_mask labels inference_params
         (self, w)
       = (Raise (FrameworkError msg), (set_language_model lm' self, w1))).
Proof.
  intros Hpost Hlm.
  rewrite (forward_after_backbone _ _ _ _ _ _ _ _ _ _ Hlm). simpl.
  rewrite Hpost. unfold logit_weights. simpl. split.
  - intros -> Hnone. by rewrite Hnone.
  - intros msg -> Hmsg. by rewrite Hmsg.
Qed.

(** An error of the backbone is the error of [forward]. *)
Lemma forward_backbone_raise self w input_ids position_ids attention_mask
    labels inference_params msg lm' w1 :
  language_model_call input_ids position_ids attention_mask inference_params
    (language_model self, w) = (inl msg, (lm', w1)) →
  forward input_ids position_ids attention_mask labels inference_params
    (self, w)
  = (Raise (FrameworkError msg), (set_language_model lm' self, w1)).
Proof.
  intros Hlm. unfold forward.
  by rewrite (bind_raise _ _ _ _ _ (on_language_model_call_raise _ _ _ _ _ _ Hlm)).
Qed.

End forward_more.

(** On a stage that is not the last, [forward] uses the backbone only: two
    frameworks whose backbones do the same on the call give the same
    outcome, whatever their projections, cross entropies and weights, and
    whatever the labels. *)
Theorem forward_not_last_stage_backbone_only {T : FrameworkTypes}
    (F1 F2 : Framework) (self : GPTModel) (w : World) input_ids position_ids
    attention_mask labels labels' inference_params :
  post_process self = false →
  language_model_call (Framework:=F1) input_ids position_ids attention_mask
    inference_params (language_model self, w)
  = language_model_call (Framework:=F2) input_ids position_ids attention_mask
      inference_params (language_model self, w) →
  forward (F:=F1) input_ids position_ids attention_mask labels
    inference_params (self, w)
  = forward (F:=F2) input_ids position_ids attention_mask labels'
      inference_params (self, w).
Proof.
  intros Hpost Hlm.
  destruct (language_model_call (Framework:=F2) input_ids position_ids
              attention_mask inference_params (language_model self, w))
    as [[msg|lm_output] [lm' w1]] eqn:Hlm2.
  - by rewrite (forward_backbone_raise (F:=F1) _ _ _ _ _ _ _ _ _ _ Hlm),
      (forward_backbone_raise (F:=F2) _ _ _ _ _ _ _ _ _ _ Hlm2).
  - rewrite (forward_after_backbone (F:=F1) _ _ _ _ _ _ _ _ _ _ Hlm),
      (forward_after_backbone (F:=F2) _ _ _ _ _ _ _ _ _ _ Hlm2).
    simpl. by rewrite Hpost.
Qed.

(** ** What the methods leave alone *)

Section frames.
Context {T : FrameworkTypes} {F : Framework}.
Context {B : Type} (f : GPTModel → B).

Lemma keeps_bind {A A'} (m : py (GPTModel * World) A)
    (k : A → py (GPTModel * World) A') :
  keeps f m → (∀ a, keeps f (k a)) → keeps f (m ≫= k).
Proof.
  intros Hm Hk s. rewrite bind_unfold. specialize (Hm s).
  destruct (m s) as [[a|e] s']; simpl in *; [|done].
  by rewrite Hk.
Qed.

Lemma keeps_ret {A} (a : A) : keeps f (mret a : py (GPTModel * World) A).
Proof. by intros s. Qed.

Lemma keeps_attr {A} (g : GPTModel → A) : keeps f (attr g).
Proof. by intros s. Qed.

Lemma keeps_attr_opt {A} name (g : GPTModel → option A) :
  keeps f (attr_opt name g).
Proof. intros s. unfold attr_opt. by destruct (g s.1). Qed.

Lemma keeps_lift_outcome {A} (o : outcome A) :
  keeps f (lift_outcome o : py (GPTModel * World) A).
Proof. by intros s. Qed.

Lemma keeps_on_world {A} (m : py World A) : keeps f (on_world m).
Proof. intros [self w]. by rewrite on_world_unfold. Qed.

Lemma keeps_on_language_model {A} (m : py (Backbone * World) A) :
  (∀ lm self, f (set_language_model lm self) = f self) →
  keeps f (on_language_model m).
Proof.
  intros Hf [self w]. unfold on_language_model, zoom. simpl.
  destruct (m _) as [r [lm' w']]. simpl. apply Hf.
Qed.

Lemma keeps_on_word_embeddings {A} (m : py (Embedding * World) A) :
  (∀ e self, f (set_word_embeddings e self) = f self) →
  keeps f (on_word_embeddings m).
Proof.
  intros Hf [self w]. unfold on_word_embeddings, zoom. simpl.
  destruct (word_embeddings self); [|done].
  destruct (m _) as [r [e' w']]. simpl. apply Hf.
Qed.

Lemma keeps_if {A} (c : bool) (m1 m2 : py (GPTModel * World) A) :
  keeps f m1 → keeps f m2 → keeps f (if c then m1 else m2).
Proof. by destruct c. Qed.

End frames.

Section configuration.
Context {T : FrameworkTypes} {F : Framework}.

Ltac frame :=
  repeat first
    [ apply keeps_bind; [|intros ?]
    | apply keeps_if
    | apply keeps_ret | apply keeps_attr | apply keeps_attr_opt
    | apply keeps_lift_outcome | apply keeps_on_world
    | apply keeps_on_language_model; done
    | apply keeps_on_word_embeddings; done ].

(** The four methods change nothing of an instance but its two modules:
    the flags, the keys and the tying mode are after the call what they
    were before it, whether the call returns or raises. *)
Theorem methods_keep_configuration :
  (∀ input_tensor, keeps configuration (set_input_tensor input_tensor))
  ∧ (∀ input_ids position_ids attention_mask labels inference_params,
       keeps configuration
         (forward input_ids position_ids attention_mask labels
            inference_params))
  ∧ (∀ prefix keep_vars,
       keeps configuration (state_dict_for_save_checkpoint prefix keep_vars))
  ∧ (∀ state_dict strict,
       keeps configuration (load_state_dict state_dict strict)).
Proof.
  split_and!; intros.
  - unfold set_input_tensor. frame.
  - unfold forward. frame.
  - unfold state_dict_for_save_checkpoint. frame.
  - unfold load_state_dict. frame.
Qed.

(** [set_input_tensor] and [forward] reach the backbone only: the copy of
    the word embeddings of the instance is left as it is. *)
Theorem forward_keeps_word_embeddings :
  (∀ input_tensor, keeps word_embeddings (set_input_tensor input_tensor))
  ∧ (∀ input_ids position_ids attention_mask labels inference_params,
       keeps word_embeddings
         (forward input_ids position_ids attention_mask labels
            inference_params)).
Proof.
  split_and!; intros.
  - unfold set_input_tensor. frame.
  - unfold forward. frame.
Qed.

End configuration.

(** ** Entries and errors of the checkpoints *)

Section checkpoint_more.
Context {T : FrameworkTypes} {F : Framework}.
Implicit Types (self : GPTModel) (w : World).
Implicit Types (sd : gmap string (pyval elt)).

(** The mapping that [state_dict_for_save_checkpoint] returns holds, under
    the key of the language model, what the backbone gave for the same
    prefix and keep_vars and, on a stage that keeps its copy of the word
    embeddings, under the key of the head what the copy gave; it has no
    other key. *)
Theorem state_dict_entries self w prefix keep_vars sd s' :
  _word_embeddings_for_head_key self ≠ Some (_language_model_key self) →
  state_dict_for_save_checkpoint prefix keep_vars (self, w) = (Return sd, s') →
  ∃ v lm' w1,
    language_model_state_dict_for_save_checkpoint prefix keep_vars
      (language_model self, w) = (inr v, (lm', w1))
    ∧ sd !! _language_model_key self = Some v
    ∧ if saves_word_embeddings self then
        ∃ e k v' e' w2,
          word_embeddings self = Some e
          ∧ _word_embeddings_for_head_key self = Some k
          ∧ word_embeddings_state_dict prefix keep_vars (e, w1)
            = (inr v', (e', w2))
          ∧ sd !! k = Some v'
          ∧ dom sd = {[k; _language_model_key self]}
          ∧ s' = (set_word_embeddings e' (set_language_model lm' self), w2)
      else sd = {[_language_model_key self := v]}
           ∧ s' = (set_language_model lm' self, w1).
Proof.
  intros Hne. rewrite state_dict_for_save_checkpoint_unfold.
  destruct (language_model_state_dict_for_save_checkpoint _ _ _)
    as [[msg|v] [lm' w1]]; [done|]. simpl.
  destruct (saves_word_embeddings self).
  - destruct (word_embeddings self) as [e|]; [|done].
    destruct (word_embeddings_state_dict _ _ _) as [[msg|v'] [e' w2]] eqn:He;
      [done|].
    destruct (_word_embeddings_for_head_key self) as [k|]; [|done].
    intros [= <- <-]. exists v, lm', w1. split; [done|]. split.
    + rewrite lookup_insert_ne by congruence. apply lookup_insert_eq.
    + exists e, k, v', e', w2. split_and!; try done.
      * apply lookup_insert_eq.
      * by rewrite !dom_insert_L, dom_empty_L, (right_id_L ∅ (∪)).
  - intros [= <- <-]. exists v, lm', w1. split; [done|]. split.
    + apply lookup_insert_eq.
    + done.
Qed.

(** On a stage that keeps its copy of the word embeddings, a mapping
    without the key of the head is refused with a key error before
    anything is loaded: the instance and the world are left as they were,
    also when the mapping has the key of the language model. *)
Theorem load_state_dict_missing_head_key self w sd strict e k :
  saves_word_embeddings self = true →
  word_embeddings self = Some e →
  _word_embeddings_for_head_key self = Some k →
  sd !! k = None →
  load_state_dict sd strict (self, w) = (Raise (KeyError k), (self, w)).
Proof.
  intros Hc He Hk Hsd. by rewrite load_state_dict_unfold, Hc, He, Hk, Hsd.
Qed.

(** Loading is not all or nothing: the copy of the word embeddings loads
    first, and when the loader of the backbone then fails, the error is
    raised with the copy already replaced. *)
Theorem load_state_dict_partial self w sd strict e k v e' w1 msg lm' w2 :
  saves_word_embeddings self = true →
  word_embeddings self = Some e →
  _word_embeddings_for_head_key self = Some k →
  sd !! k = Some v →
  word_embeddings_load_state_dict v strict (e, w) = (inr (), (e', w1)) →
  language_model_load_state_dict
    (match sd !! _language_model_key self with
     | Some sub => sub
     | None => PDict sd
     end) strict (language_model self, w1)
  = (inl msg, (lm', w2)) →
  ∃ self', load_state_dict sd strict (self, w)
           = (Raise (FrameworkError msg), (self', w2))
           ∧ word_embeddings self' = Some e'
           ∧ language_model self' = lm'.
Proof.
  intros Hc He Hk Hsd Hload Hlm.
  rewrite load_state_dict_unfold, Hc, He, Hk, Hsd, Hload. simpl.
  rewrite (on_language_model_call_raise _ (set_word_embeddings e' self)
             _ _ _ _ Hlm).
  eexists. split; [reflexivity|]. done.
Qed.

(** When the mapping has the key of the language model, [load_state_dict]
    reads the entry under it and, on a stage that keeps its copy of the
    word embeddings, the entry under the key of the head, and nothing
    else: mappings that agree on these entries load alike, in strict mode
    too. *)
Theorem load_state_dict_other_entries self w sd sd' strict :
  is_Some (sd !! _language_model_key self) →
  sd' !! _language_model_key self = sd !! _language_model_key self →
  (saves_word_embeddings self = true →
   ∀ k, _word_embeddings_for_head_key self = Some k → sd' !! k = sd !! k) →
  load_state_dict sd' strict (self, w) = load_state_dict sd strict (self, w).
Proof.
  intros [sub Hsub] Hkey Hhead.
  rewrite !load_state_dict_unfold. simpl. rewrite Hkey, Hsub.
  destruct (saves_word_embeddings self); [|done].
  destruct (word_embeddings self) as [e|]; [|done].
  destruct (_word_embeddings_for_head_key self) as [k|]; [|done].
  by rewrite (Hhead eq_refl k eq_refl).
Qed.

(** On a stage that keeps no copy of its own, saving and loading leave
    the attribute of the word embeddings as it is. *)
Theorem checkpoint_keeps_word_embeddings self w :
  saves_word_embeddings self = false →
  (∀ prefix keep_vars,
     word_embeddings
       (state_dict_for_save_checkpoint prefix keep_vars (self, w)).2.1
     = word_embeddings self)
  ∧ (∀ sd strict,
       word_embeddings (load_state_dict sd strict (self, w)).2.1
       = word_embeddings self).
Proof.
  intros Hc. split.
  - intros. rewrite state_dict_for_save_checkpoint_unfold, Hc.
    by destruct (language_model_state_dict_for_save_checkpoint _ _ _)
      as [[msg|v] [lm' w1]].
  - intros. rewrite load_state_dict_unfold, Hc. simpl.
    unfold on_language_model, zoom. simpl.
    by destruct (call _ _) as [r [lm' w1]].
Qed.

End checkpoint_more.

(** ** Construction with untied embeddings *)

Section construction.
Context {T : FrameworkTypes} {F : Framework}.

(** With untied embeddings [__init__] does not run the initialiser of the
    base class: when get_language_model returns, the instance has the
    module and the key it gave, the arguments as flags, no copy of the
    word embeddings and no key of the head, and every mapping it saves has
    the key of the language model only. *)
Theorem init_untied num_tokentypes po pre post (w : World) lm key w1 :
  untie_embeddings_and_output_weights_of (get_args w) = true →
  get_language_model num_tokentypes false causal
    (init_method_normal (init_method_std (get_args w)))
    (scaled_init_method_normal (init_method_std (get_args w))
       (num_layers (get_args w)))
    pre post w = (inr (lm, key), w1) →
  ∃ self,
    __init__ num_tokentypes po pre post w = (Return self, w1)
    ∧ language_model self = lm
    ∧ configuration self
      = (po, pre, post, fp16_lm_cross_entropy_of (get_args w), true, key,
         false, None)
    ∧ word_embeddings self = None
    ∧ ∀ prefix keep_vars w' sd s',
        state_dict_for_save_checkpoint prefix keep_vars (self, w')
        = (Return sd, s') →
        dom sd = {[key]}.
Proof.
  intros Huntie Hlm. unfold __init__.
  rewrite bind_unfold. unfold gets at 1.
  rewrite (bind_return _ _ _ _ _ (call_return _ _ _ _ Hlm)).
  rewrite Huntie. simpl.
  eexists. split; [reflexivity|]. split_and!; try done.
  intros prefix keep_vars w' sd s' Hsd.
  apply state_dict_for_save_checkpoint_dom in Hsd.
  unfold saves_word_embeddings in Hsd. simpl in Hsd.
  by rewrite !andb_false_r in Hsd.
Qed.

(** With tied embeddings [__init__] hands the instance to the initialiser
    of the base class, with [share_word_embeddings] set and no copy of the
    word embeddings yet, and gives the instance as the initialiser leaves
    it; an error of the initialiser is the error of the construction. *)
Theorem init_tied num_tokentypes po pre post (w : World) lm key w1 :
  untie_embeddings_and_output_weights_of (get_args w) = false →
  get_language_model num_tokentypes false causal
    (init_method_normal (init_method_std (get_args w)))
    (scaled_init_method_normal (init_method_std (get_args w))
       (num_layers (get_args w)))
    pre post w = (inr (lm, key), w1) →
  ∃ self0,
    language_model self0 = lm
    ∧ configuration self0
      = (po, pre, post, fp16_lm_cross_entropy_of (get_args w), false, key,
         true, None)
    ∧ word_embeddings self0 = None
    ∧ (∀ self w2,
         initialize_word_embeddings (self0, w1) = (inr (), (self, w2)) →
         __init__ num_tokentypes po pre post w = (Return self, w2))
    ∧ (∀ msg self w2,
         initialize_word_embeddings (self0, w1) = (inl msg, (self, w2)) →
         __init__ num_tokentypes po pre post w
         = (Raise (FrameworkError msg), w2)).
Proof.
  intros Huntie Hlm.
  set (self0 :=
         {| parallel_output := po;
            pre_process := pre;
            post_process := post;
            fp16_lm_cross_entropy := fp16_lm_cross_entropy_of (get_args w);
            untie_embeddings_and_output_weights := false;
            language_model := lm;
            _language_model_key := key;
            share_word_embeddings := true;
            word_embeddings := None;
            _word_embeddings_for_head_key := None |}).
  assert (__init__ num_tokentypes po pre post w
          = constructing self0 (call initialize_word_embeddings) w1) as ->.
  { unfold __init__. rewrite bind_unfold. unfold gets at 1.
    rewrite (bind_return _ _ _ _ _ (call_return _ _ _ _ Hlm)).
    by rewrite Huntie. }
  exists self0. do 3 (split; [reflexivity|]). split.
  - intros self w2 Hinit. unfold constructing, call. by rewrite Hinit.
  - intros msg self w2 Hinit. unfold constructing, call. by rewrite Hinit.
Qed.

End construction.

(** * The properties on the integer framework *)

Import IntFramework.
Local Open Scope Z_scope.

(** The backbone of [single_stage] embeds [input_ids0]. *)
Lemma single_stage_backbone :
  language_model_call input_ids0 None None None
    (language_model single_stage, args_untied)
  = (inr lm_output0, (language_model single_stage, args_untied)).
Proof. vm_compute. reflexivity. Qed.

(** [forward] on [single_stage] without labels. *)
Lemma single_stage_forward :
  ∃ t, forward input_ids0 None None None None (single_stage, args_untied)
       = (Return t, (single_stage, args_untied))
       ∧ shape t = [3; 2; 5]%nat.
Proof. eexists. split; vm_compute; reflexivity. Qed.

(** The calls of the integer framework that read their arguments only. *)
Lemma fw_pure_read {S A} (f : S → string + A) s :
  fw_pure (λ s, a ← f s; inr (a, s)) s
  = (match f s with inr a => inr a | inl msg => inl msg end, s).
Proof. unfold fw_pure, mbind, err_mbind. by destruct (f s). Qed.

Lemma initialize_word_embeddings_stage_flags :
  preserves_stage_flags (call (initialize_word_embeddings (T:=types))).
Proof.
  intros [self w]. unfold call. simpl. unfold fw_pure. simpl.
  destruct (negb (share_word_embeddings self)); [done|].
  by destruct (post_process self && negb (pre_process self)).
Qed.

(** The modules of [last_stage_fresh] load what those of [last_stage]
    save. *)
Lemma int_language_model_round_trip :
  language_model_round_trip "" false true
    (language_model last_stage) (language_model last_stage_fresh).
Proof.
  intros w. do 3 eexists. split; [reflexivity|].
  intros wb. do 2 eexists. split; vm_compute; reflexivity.
Qed.

Lemma int_word_embeddings_round_trip ea eb :
  word_embeddings last_stage = Some ea →
  word_embeddings last_stage_fresh = Some eb →
  word_embeddings_round_trip "" false true ea eb.
Proof.
  intros [= <-] [= <-].
  intros w. do 3 eexists. split; [reflexivity|].
  intros wb. do 2 eexists. split; vm_compute; reflexivity.
Qed.

(** C6 on a first stage, which returns the backbone output, and on
    [single_stage], which post-processes it. *)
Lemma forward_post_process_routing_witness :
  forward input_ids0 None None None None (first_stage, args_untied)
  = (Return lm_output0, (first_stage, args_untied))
  ∧ forward input_ids0 None None None None (single_stage, args_untied)
    = on_world (post_language_model_processing
                  lm_output0 None (zeros [5; 4]%nat float) true false)
        (single_stage, args_untied).
Proof.
  split.
  - apply (forward_post_process_routing first_stage args_untied input_ids0
             None None None None lm_output0 (language_model first_stage)
             args_untied); [vm_compute; reflexivity|reflexivity].
  - apply (forward_post_process_routing single_stage args_untied input_ids0
             None None None None lm_output0 (language_model single_stage)
             args_untied);
      [vm_compute; reflexivity|reflexivity|vm_compute; reflexivity].
Defined.

(** C1, as amended, on [single_stage]: projected logits of shape [2, 3, 5]
    come back as [3, 2, 5]. *)
Lemma forward_no_labels_shape_witness :
  ∃ t, forward input_ids0 None None None None (single_stage, args_untied)
       = (Return t, (single_stage, args_untied))
       ∧ shape t = [3; 2; 5]%nat ∧ dtype_of t = float.
Proof.
  edestruct (forward_no_labels_shape single_stage args_untied input_ids0
              None None None lm_output0 (language_model single_stage)
              args_untied (zeros [5; 4]%nat float)) as (t & Hf & Hs & Hd).
  - reflexivity.
  - vm_compute; reflexivity.
  - vm_compute; reflexivity.
  - reflexivity.
  - vm_compute. lia.
  - exists t. split_and!; [exact Hf|exact Hs|exact Hd].
Defined.

(** C1, as stated, fails: on [single_stage] the backbone returns a tensor
    of shape [2, 3, 4], sequence length 2, batch size 3 and hidden size 4,
    and [forward] without labels returns a tensor of shape [3, 2, 5], the
    last axis being that of the 5 rows of the projection weights, not
    [3, 2, 4]. *)
Lemma forward_no_labels_shape_counterexample :
  post_process single_stage = true
  ∧ language_model_call input_ids0 None None None
      (language_model single_stage, args_untied)
    = (inr lm_output0, (language_model single_stage, args_untied))
  ∧ shape lm_output0 = [2; 3; 4]%nat
  ∧ ∃ t s, forward input_ids0 None None None None (single_stage, args_untied)
           = (Return t, s)
           ∧ shape t = [3; 2; 5]%nat
           ∧ shape t ≠ swap 0 1 (shape lm_output0).
Proof.
  split; [reflexivity|]. split; [apply single_stage_backbone|].
  split; [reflexivity|].
  destruct single_stage_forward as (t & Hf & Hs).
  exists t, (single_stage, args_untied). split_and!; [done|done|].
  rewrite Hs. vm_compute. discriminate.
Qed.

(** C2 on float logits: the assertion fails with the flag and does not
    without it. *)
Lemma precision_assertion_witness :
  post_language_model_processing (T:=types)
    lm_output0 (Some labels0) (zeros [5; 4]%nat float) true true args_untied
  = (Raise AssertionError, args_untied)
  ∧ (post_language_model_processing (T:=types)
       lm_output0 (Some labels0) (zeros [5; 4]%nat float) true false
       args_untied).1 ≠ Raise AssertionError.
Proof.
  split.
  - eapply (precision_assertion (T:=types) lm_output0 labels0
              (zeros [5; 4]%nat float) true true args_untied);
      [reflexivity|vm_compute; lia|reflexivity|vm_compute; discriminate].
  - eapply (precision_assertion (T:=types) lm_output0 labels0
              (zeros [5; 4]%nat float) true false args_untied);
      [reflexivity|vm_compute; lia|left; reflexivity].
Defined.

(** C9 on float logits: the same tensor comes back with the flag set and
    unset. *)
Lemma no_labels_no_precision_check_witness :
  ∃ t, shape t = [3; 2; 5]%nat
       ∧ post_language_model_processing (T:=types)
           lm_output0 None (zeros [5; 4]%nat float) true true args_untied
         = (Return t, args_untied)
       ∧ post_language_model_processing (T:=types)
           lm_output0 None (zeros [5; 4]%nat float) true false args_untied
         = (Return t, args_untied).
Proof.
  destruct (no_labels_no_precision_check (T:=types)
              lm_output0 (zeros [5; 4]%nat float) true args_untied)
    as (_ & _ & Hret).
  edestruct Hret as (t & Ht & Hpost); [reflexivity|vm_compute; lia|].
  exists t. split_and!; [|apply Hpost|apply Hpost].
  apply transpose_inv in Ht. by destruct Ht as (_ & _ & -> & _).
Defined.

(** C4 on [single_stage]: labels of shape [3, 2] give a loss of shape
    [3, 2]. *)
Lemma forward_loss_shape_witness :
  ∃ t, forward input_ids0 None None (Some labels0) None
         (single_stage, args_untied)
       = (Return t, (single_stage, args_untied))
       ∧ shape t = shape labels0.
Proof.
  edestruct (forward_loss_shape single_stage args_untied input_ids0
               None None labels0 None lm_output0 (language_model single_stage)
               args_untied (zeros [5; 4]%nat float))
    as (t & Hf & _ & _ & _ & _ & _ & Hs).
  - reflexivity.
  - vm_compute; reflexivity.
  - vm_compute; reflexivity.
  - reflexivity.
  - discriminate.
  - reflexivity.
  - reflexivity.
  - reflexivity.
  - exists t. split; [exact Hf|exact Hs].
Defined.



(** C8 on the integer framework: a last stage built by [__init__], and
    the flags after [forward] and after a [load_state_dict] that raises. *)
Lemma stage_flags_fixed_witness :
  (∃ self w, __init__ 0 true false true args_tied = (Return self, w)
             ∧ stage_flags self = (false, true))
  ∧ stage_flags
      (forward input_ids0 None None (Some labels0) None
         (single_stage, args_untied)).2.1
    = stage_flags single_stage
  ∧ stage_flags
      (load_state_dict ∅ true (last_stage, args_tied)).2.1
    = stage_flags last_stage.
Proof.
  destruct (stage_flags_fixed (T:=types))
    as (Hinit & _ & Hforward & _ & Hload).
  split_and!.
  - do 2 eexists. split; [vm_compute; reflexivity|].
    eapply (Hinit initialize_word_embeddings_stage_flags 0%nat true false true
              args_tied).
    vm_compute; reflexivity.
  - apply (Hforward input_ids0 None None (Some labels0) None
             (single_stage, args_untied)).
  - apply (Hload ∅ true (last_stage, args_tied)).
Defined.

(** What the three instances save. *)
Lemma last_stage_saves :
  state_dict_for_save_checkpoint "" false (last_stage, args_tied)
  = (Return (<["word_embeddings_for_head" := head_state_dict]>
               {["language_model" :=
                   params_state_dict "" (lm_params (language_model last_stage))]}),
     (last_stage, args_tied)).
Proof. vm_compute. reflexivity. Qed.

Lemma single_stage_saves :
  state_dict_for_save_checkpoint "" false (single_stage, args_untied)
  = (Return {["language_model" :=
                params_state_dict "" (lm_params (language_model single_stage))]},
     (single_stage, args_untied)).
Proof. vm_compute. reflexivity. Qed.

Lemma single_stage_tied_saves :
  state_dict_for_save_checkpoint "" false (single_stage_tied, args_tied)
  = (Return {["language_model" :=
                params_state_dict ""
                  (lm_params (language_model single_stage_tied))]},
     (single_stage_tied, args_tied)).
Proof. vm_compute. reflexivity. Qed.

(** C3 on a last stage with tied embeddings, whose mapping has the key of
    the head, on [single_stage], with untied embeddings, and on
    [single_stage_tied], with tied embeddings, whose mappings have the key
    of the language model only. *)
Lemma state_dict_word_embeddings_key_witness :
  (∃ sd s, state_dict_for_save_checkpoint "" false (last_stage, args_tied)
           = (Return sd, s)
           ∧ "word_embeddings_for_head" ∈ dom sd)
  ∧ (∃ sd s, state_dict_for_save_checkpoint "" false (single_stage, args_untied)
             = (Return sd, s)
             ∧ dom sd = {["language_model"]})
  ∧ (∃ sd s, state_dict_for_save_checkpoint "" false
               (single_stage_tied, args_tied)
             = (Return sd, s)
             ∧ ("word_embeddings_for_head" ∉ dom sd)
             ∧ dom sd = {["language_model"]}).
Proof.
  split_and!.
  - do 2 eexists. split; [exact last_stage_saves|].
    destruct (state_dict_word_embeddings_key (T:=types) last_stage args_tied
                "" false _ _ last_stage_saves) as (_ & Hiff & _).
    apply Hiff; [discriminate|].
    split_and!; reflexivity.
  - do 2 eexists. split; [exact single_stage_saves|].
    destruct (state_dict_word_embeddings_key (T:=types) single_stage
                args_untied "" false _ _ single_stage_saves)
      as (_ & _ & _ & _ & Huntied).
    apply Huntied. reflexivity.
  - do 2 eexists. split; [exact single_stage_tied_saves|].
    destruct (state_dict_word_embeddings_key (T:=types) single_stage_tied
                args_tied "" false _ _ single_stage_tied_saves)
      as (_ & Hiff & _ & Hother & _).
    split.
    + intros Hin. apply Hiff in Hin; [|discriminate].
      destruct Hin as [Hk _]. discriminate Hk.
    + apply Hother. intros (_ & Hpre & _). discriminate Hpre.
Defined.

(** C10 on [single_stage]: the empty mapping goes to the loader whole, and
    of a mapping with the key of the language model its entry. *)
Lemma load_state_dict_backbone_argument_witness :
  load_state_dict ∅ false (single_stage, args_untied)
  = on_language_model
      (call (language_model_load_state_dict (PDict ∅) false))
      (single_stage, args_untied)
  ∧ load_state_dict {[ "language_model" := PDict ∅ ]} false
      (single_stage, args_untied)
    = on_language_model
        (call (language_model_load_state_dict (PDict ∅) false))
        (single_stage, args_untied).
Proof.
  split.
  - destruct (load_state_dict_backbone_argument (T:=types) single_stage
                args_untied ∅ false (single_stage, args_untied))
      as [Habsent _]; [left; split; reflexivity|].
    apply Habsent. rewrite dom_empty_L. apply not_elem_of_empty.
  - destruct (load_state_dict_backbone_argument (T:=types) single_stage
                args_untied {[ "language_model" := PDict ∅ ]} false
                (single_stage, args_untied))
      as [_ Hpresent]; [left; split; reflexivity|].
    apply Hpresent. reflexivity.
Defined.

(** C5 from [last_stage] to [last_stage_fresh], whose parameters differ
    before the loading. *)
Lemma checkpoint_round_trip_witness :
  parameters last_stage_fresh ≠ parameters last_stage
  ∧ ∃ sd a' w1 b' w2,
      state_dict_for_save_checkpoint "" false (last_stage, args_tied)
      = (Return sd, (a', w1))
      ∧ load_state_dict sd true (last_stage_fresh, args_tied)
        = (Return (), (b', w2))
      ∧ parameters b' = parameters last_stage.
Proof.
  split.
  - intros Heq.
    apply (f_equal (λ p, (λ t, item t []) <$>
                         p.1 !! "encoder.final_layernorm.weight")) in Heq.
    vm_compute in Heq. discriminate.
  - apply (checkpoint_round_trip (T:=types) last_stage last_stage_fresh
             args_tied args_tied "" false true).
    + by split_and!.
    + split; [|discriminate]. split; eexists; reflexivity.
    + split; [|discriminate]. split; eexists; reflexivity.
    + apply int_language_model_round_trip.
    + apply int_word_embeddings_round_trip.
Defined.

(** ** The further properties on the integer framework *)

(** The assertion failure of [single_stage_fp16] on float logits has the
    cause that the property names. *)
Lemma assertion_failure_cause_witness :
  ∃ l output w1,
    Some labels0 = Some l ∧ (2 ≤ dim l)%nat ∧ true = true
    ∧ parallel_lm_logits (Framework:=framework)
        lm_output0 (zeros [5; 4]%nat float) true args_untied
      = (inr output, w1)
    ∧ dtype_of output ≠ half.
Proof.
  apply (assertion_failure_cause (T:=types) lm_output0 (Some labels0)
           (zeros [5; 4]%nat float) true true args_untied).
  vm_compute. reflexivity.
Defined.

(** Labels of one axis with the flag set and float logits: the index
    error, not the assertion failure. *)
Lemma labels_of_one_axis_raise_witness :
  post_language_model_processing (T:=types)
    lm_output0 (Some labels_flat) (zeros [5; 4]%nat float) true true
    args_untied
  = (Raise IndexError, args_untied).
Proof.
  eapply (labels_of_one_axis_raise (T:=types) lm_output0 labels_flat
            (zeros [5; 4]%nat float) true true args_untied);
    [reflexivity|vm_compute; lia].
Defined.

(** Float logits without the flag reach the cross entropy as they are. *)
Lemma cross_entropy_logits_witness :
  ∃ logits output : Tensor Z,
    parallel_lm_logits (Framework:=framework)
      lm_output0 (zeros [5; 4]%nat float) true args_untied
    = (inr output, args_untied)
    ∧ dtype_of logits = float ∧ shape logits = [2; 3; 5]%nat
    ∧ logits = output.
Proof.
  edestruct (cross_entropy_logits (T:=types) lm_output0 labels0
               (zeros [5; 4]%nat float) true false args_untied)
    as (logits & Hd & Hs & Hsame & _);
    [reflexivity|reflexivity|discriminate|].
  exists logits. eexists.
  split_and!; [reflexivity|exact Hd|exact Hs|apply Hsame; reflexivity].
Defined.

(** The framework without cross entropy gives the same logits. *)
Lemma no_labels_no_cross_entropy_witness :
  post_language_model_processing (F:=framework)
    lm_output0 None (zeros [5; 4]%nat float) true true args_untied
  = post_language_model_processing (F:=framework_without_loss)
      lm_output0 None (zeros [5; 4]%nat float) true false args_untied.
Proof.
  apply (no_labels_no_cross_entropy (T:=types) framework
           framework_without_loss).
  reflexivity.
Defined.

(** The logits of [single_stage], element by element. *)
Lemma forward_no_labels_elements_witness :
  ∃ (t output : Tensor Z),
    forward input_ids0 None None None None (single_stage, args_untied)
    = (Return t, (single_stage, args_untied))
    ∧ shape output = [2; 3; 5]%nat
    ∧ item t [2; 1; 4]%nat = item output [1; 2; 4]%nat.
Proof.
  edestruct (forward_no_labels_elements single_stage args_untied input_ids0
               None None None lm_output0 (language_model single_stage)
               args_untied (zeros [5; 4]%nat float)) as (t & Hf & Hitem).
  - reflexivity.
  - vm_compute; reflexivity.
  - vm_compute; reflexivity.
  - reflexivity.
  - vm_compute. lia.
  - eexists t, _. split; [exact Hf|]. split; [|apply Hitem]. reflexivity.
Defined.

(** The loss of [single_stage], element by element. *)
Lemma forward_loss_elements_witness :
  ∃ (t loss : Tensor Z),
    forward input_ids0 None None (Some labels0) None
      (single_stage, args_untied)
    = (Return t, (single_stage, args_untied))
    ∧ shape loss = [2; 3]%nat
    ∧ item t [2; 1]%nat = item loss [1; 2]%nat.
Proof.
  edestruct (forward_loss_elements single_stage args_untied input_ids0
               None None labels0 None lm_output0 (language_model single_stage)
               args_untied (zeros [5; 4]%nat float))
    as (t & Hf & _ & _ & Hitem).
  - reflexivity.
  - vm_compute; reflexivity.
  - vm_compute; reflexivity.
  - reflexivity.
  - discriminate.
  - reflexivity.
  - reflexivity.
  - vm_compute. lia.
  - eexists t, _. split; [exact Hf|]. split; [|apply Hitem]. reflexivity.
Defined.

(** On [single_stage], untied, the weight of the output layer; on
    [last_stage_running], tied, the weight of the copy of the word
    embeddings. *)
Lemma forward_logit_weights_witness :
  forward input_ids0 None None None None (single_stage, args_untied)
  = on_world (post_language_model_processing
                lm_output0 None (zeros [5; 4]%nat float) true false)
      (single_stage, args_untied)
  ∧ forward input_ids0 None None None None (last_stage_running, args_tied)
    = on_world (post_language_model_processing
                  hidden0 None (ones [5; 4]%nat float) true false)
        (last_stage_running, args_tied).
Proof.
  split.
  - apply (forward_logit_weights single_stage args_untied input_ids0
             None None None None lm_output0 (language_model single_stage)
             args_untied);
      [reflexivity|vm_compute; reflexivity|vm_compute; reflexivity].
  - apply (forward_logit_weights last_stage_running args_tied input_ids0
             None None None None hidden0 (language_model last_stage_running)
             args_tied);
      [reflexivity|vm_compute; reflexivity|vm_compute; reflexivity].
Defined.

(** A backbone without output layer, and a last stage without its copy of
    the word embeddings. *)
Lemma forward_without_logit_weights_witness :
  forward input_ids0 None None None None
    (single_stage_no_output_layer, args_untied)
  = (Raise (AttributeError "output_layer"),
     (single_stage_no_output_layer, args_untied))
  ∧ forward input_ids0 None None None None
      (last_stage_without_head, args_tied)
    = (Raise (FrameworkError "no word_embeddings"),
       (last_stage_without_head, args_tied)).
Proof.
  split.
  - destruct (forward_without_logit_weights single_stage_no_output_layer
                args_untied input_ids0 None None None None lm_output0
                (language_model single_stage_no_output_layer) args_untied)
      as [Huntied _];
      [reflexivity|vm_compute; reflexivity|].
    apply Huntied; [reflexivity|vm_compute; reflexivity].
  - destruct (forward_without_logit_weights last_stage_without_head
                args_tied input_ids0 None None None None hidden0
                (language_model last_stage_without_head) args_tied)
      as [_ Htied];
      [reflexivity|vm_compute; reflexivity|].
    apply Htied; [reflexivity|vm_compute; reflexivity].
Defined.

(** [first_stage] on the two frameworks, with and without labels. *)
Lemma forward_not_last_stage_backbone_only_witness :
  forward (F:=framework) input_ids0 None None (Some labels0) None
    (first_stage, args_untied)
  = forward (F:=framework_without_loss) input_ids0 None None None None
      (first_stage, args_untied).
Proof.
  apply (forward_not_last_stage_backbone_only (T:=types) framework
           framework_without_loss first_stage args_untied);
    reflexivity.
Defined.

(** The mapping of [last_stage]: the two entries and no other key. *)
Lemma state_dict_entries_witness :
  ∃ sd s v,
    state_dict_for_save_checkpoint "" false (last_stage, args_tied)
    = (Return sd, s)
    ∧ language_model_state_dict_for_save_checkpoint "" false
        (language_model last_stage, args_tied)
      = (inr v, (language_model last_stage, args_tied))
    ∧ sd !! "language_model" = Some v
    ∧ sd !! "word_embeddings_for_head" = Some head_state_dict
    ∧ dom sd = {["word_embeddings_for_head"; "language_model"]}.
Proof.
  destruct (state_dict_for_save_checkpoint "" false (last_stage, args_tied))
    as [[sd|e] s] eqn:Hsd; [|by vm_compute in Hsd].
  destruct (state_dict_entries (T:=types) last_stage args_tied "" false sd s)
    as (v & lm' & w1 & Hlm & Hv & Hhead); [discriminate|exact Hsd|].
  destruct Hhead as (e & k & v' & e' & w2 & [= <-] & [= <-] & He & Hk & Hdom & _).
  injection Hlm as <- <- <-. injection He as <- _ _.
  exists sd, s. eexists.
  split_and!; [reflexivity|reflexivity|exact Hv|exact Hk|exact Hdom].
Defined.

(** [last_stage] refuses the empty mapping and a mapping with the entry
    of the language model only. *)
Lemma load_state_dict_missing_head_key_witness :
  load_state_dict ∅ true (last_stage, args_tied)
  = (Raise (KeyError "word_embeddings_for_head"), (last_stage, args_tied))
  ∧ load_state_dict {[ "language_model" := PDict ∅ ]} false
      (last_stage, args_tied)
    = (Raise (KeyError "word_embeddings_for_head"), (last_stage, args_tied)).
Proof.
  split.
  - eapply (load_state_dict_missing_head_key (T:=types) last_stage args_tied
              ∅ true); reflexivity.
  - eapply (load_state_dict_missing_head_key (T:=types) last_stage args_tied
              {[ "language_model" := PDict ∅ ]} false); reflexivity.
Defined.

(** [last_stage_fresh] loads the entry of the head and then, in strict
    mode, refuses the mapping for its backbone: the error is raised with
    the weight of the head loaded. *)
Lemma load_state_dict_partial_witness :
  ∃ self' w',
    load_state_dict {[ "word_embeddings_for_head" := head_state_dict ]} true
      (last_stage_fresh, args_tied)
    = (Raise (FrameworkError "Error(s) in loading state_dict"), (self', w'))
    ∧ word_embeddings self'
      = Some {| weight := ones [vocab_size; hidden_size] float |}
    ∧ word_embeddings last_stage_fresh
      = Some {| weight := zeros [vocab_size; hidden_size] float |}.
Proof.
  edestruct (load_state_dict_partial (T:=types) last_stage_fresh args_tied
               {[ "word_embeddings_for_head" := head_state_dict ]} true)
    as (self' & Hload & He & _).
  - reflexivity.
  - reflexivity.
  - reflexivity.
  - reflexivity.
  - vm_compute. reflexivity.
  - vm_compute. reflexivity.
  - exists self'. eexists. split_and!; [exact Hload|exact He|reflexivity].
Defined.

(** An entry under another key changes nothing for [single_stage]. *)
Lemma load_state_dict_other_entries_witness :
  load_state_dict
    {[ "language_model" := PDict ∅; "optimizer" := PDict ∅ ]} true
    (single_stage, args_untied)
  = load_state_dict {[ "language_model" := PDict ∅ ]} true
      (single_stage, args_untied).
Proof.
  apply (load_state_dict_other_entries (T:=types) single_stage args_untied
           {[ "language_model" := PDict ∅ ]}
           {[ "language_model" := PDict ∅; "optimizer" := PDict ∅ ]} true).
  - eexists. reflexivity.
  - reflexivity.
  - discriminate.
Defined.

(** [first_stage] keeps no copy: the attribute is after saving and after
    loading what it was. *)
Lemma checkpoint_keeps_word_embeddings_witness :
  word_embeddings
    (state_dict_for_save_checkpoint "" false (first_stage, args_untied)).2.1
  = word_embeddings first_stage
  ∧ word_embeddings
      (load_state_dict ∅ true (first_stage, args_untied)).2.1
    = word_embeddings first_stage.
Proof.
  destruct (checkpoint_keeps_word_embeddings (T:=types) first_stage
              args_untied) as [Hsave Hload]; [reflexivity|].
  split; [apply Hsave|apply Hload].
Defined.

(** Construction with untied and with tied embeddings. *)
Lemma init_untied_witness :
  ∃ self,
    __init__ 0 true true true args_untied = (Return self, args_untied)
    ∧ configuration self
      = (true, true, true, false, true, "language_model", false, None)
    ∧ word_embeddings self = None.
Proof.
  edestruct (init_untied (T:=types) 0%nat true true true args_untied)
    as (self & Hinit & _ & Hconf & Hnone & _);
    [reflexivity|reflexivity|].
  exists self. split_and!; [exact Hinit|exact Hconf|exact Hnone].
Defined.

Lemma init_tied_witness :
  ∃ self,
    __init__ 0 true false true args_tied = (Return self, args_tied)
    ∧ word_embeddings self
      = Some {| weight := zeros [vocab_size; hidden_size] float |}
    ∧ _word_embeddings_for_head_key self = Some "word_embeddings_for_head".
Proof.
  edestruct (init_tied (T:=types) 0%nat true false true args_tied)
    as (self0 & Hlm & Hconf & Hnone & Hret & _);
    [reflexivity|reflexivity|].
  destruct self0. simpl in Hlm, Hnone. unfold configuration in Hconf.
  simpl in Hconf. injection Hconf as -> -> -> -> -> -> -> ->. subst.
  eexists. split; [apply Hret; vm_compute; reflexivity|].
  split; reflexivity.
Defined.
